(** * AutoPR: the completions repository

    A shallow embedding of [autopr/repos/completions_repo.py]: the base
    class [CompletionsRepo] with its template method [complete], the two
    OpenAI formatters that override [_complete], the retry decorator they
    share, and the factory [get_completions_repo].

    Python objects are modelled by records, exceptions by a sum type, and a
    method that may raise and that writes to its environment by a function
    from a [World] to a result and a new [World]. *)

From Stdlib Require Import ZArith List String Ascii Bool Arith Lia.
Import ListNotations.

Local Open Scope string_scope.
Local Open Scope Z_scope.

(** ** Python values

    What the upstream client may hand back: [None], a scalar, a list or a
    dict keyed by strings (the client's response object is a [dict]
    subclass). *)

#[warnings="-register-all"]
Inductive value : Type :=
| VNone
| VBool (b : bool)
| VInt (n : Z)
| VStr (s : string)
| VList (items : list value)
| VDict (entries : list (string * value)).

(** ** Exceptions

    The [openai.error] classes are all direct subclasses of [OpenAIError];
    each carries the text that [str(e)] gives.  [RetryError] is tenacity's,
    and carries the exception of the last attempt. *)

Inductive exn : Type :=
| Timeout (msg : string)
| APIError (msg : string)
| APIConnectionError (msg : string)
| RateLimitError (msg : string)
| ServiceUnavailableError (msg : string)
| InvalidRequestError (msg : string)
| AuthenticationError (msg : string)
| KeyError (key : string)
| IndexError (msg : string)
| TypeError (msg : string)
| ValueError (msg : string)
| NotImplementedError
| RetryError (last_attempt : exn).

Inductive Result (A : Type) : Type :=
| Ok (a : A)
| Raise (e : exn).

Arguments Ok {A} a.
Arguments Raise {A} e.

(** ** Strings *)

(** The one-character string [\n]. *)
Definition nl : string := String "010"%char EmptyString.

(** Python's [needle in haystack] on [str]. *)
Fixpoint contains (needle haystack : string) : bool :=
  String.prefix needle haystack
  || match haystack with
     | EmptyString => false
     | String _ rest => contains needle rest
     end.

(** ** Subscripting, [v[k]] *)

Fixpoint lookup_key (k : string) (entries : list (string * value)) : option value :=
  match entries with
  | [] => None
  | (k', v) :: rest => if String.eqb k k' then Some v else lookup_key k rest
  end.

(** [v[k]] for a string key [k]: only a dict accepts it. *)
Definition getitem_key (v : value) (k : string) : Result value :=
  match v with
  | VDict entries =>
      match lookup_key k entries with
      | Some x => Ok x
      | None => Raise (KeyError k)
      end
  | VList _ => Raise (TypeError "list indices must be integers or slices, not str")
  | VStr _ => Raise (TypeError "string indices must be integers")
  | _ => Raise (TypeError "object is not subscriptable")
  end.

(** Python's index normalisation for a sequence of length [len]. *)
Definition norm_index (len : nat) (i : Z) : option nat :=
  if (0 <=? i) && (i <? Z.of_nat len) then Some (Z.to_nat i)
  else if (- Z.of_nat len <=? i) && (i <? 0) then Some (Z.to_nat (Z.of_nat len + i))
  else None.

Fixpoint chars (s : string) : list string :=
  match s with
  | EmptyString => []
  | String c rest => String c EmptyString :: chars rest
  end.

(** [v[i]] for an integer [i].  The dicts of this model have string keys
    only, so an integer is never among them. *)
Definition getitem_int (v : value) (i : Z) : Result value :=
  match v with
  | VList items =>
      match norm_index (List.length items) i with
      | Some n =>
          match nth_error items n with
          | Some x => Ok x
          | None => Raise (IndexError "list index out of range")
          end
      | None => Raise (IndexError "list index out of range")
      end
  | VStr s =>
      match norm_index (String.length s) i with
      | Some n =>
          match nth_error (chars s) n with
          | Some c => Ok (VStr c)
          | None => Raise (IndexError "string index out of range")
          end
      | None => Raise (IndexError "string index out of range")
      end
  | VDict _ => Raise (KeyError "0")
  | _ => Raise (TypeError "object is not subscriptable")
  end.

(** [isinstance(v, dict)] *)
Definition is_dict (v : value) : bool :=
  match v with
  | VDict _ => true
  | _ => false
  end.

Definition is_none (v : value) : bool :=
  match v with
  | VNone => true
  | _ => false
  end.

Definition and_then {A B : Type} (r : Result A) (k : A -> Result B) : Result B :=
  match r with
  | Ok a => k a
  | Raise e => Raise e
  end.

(** [openai_response["choices"][0]["message"]["content"]] *)
Definition chat_content (openai_response : value) : Result value :=
  and_then (getitem_key openai_response "choices") (fun choices =>
  and_then (getitem_int choices 0) (fun choice =>
  and_then (getitem_key choice "message") (fun message =>
  getitem_key message "content"))).

(** [openai_response["choices"][0]["text"]] *)
Definition text_content (openai_response : value) : Result value :=
  and_then (getitem_key openai_response "choices") (fun choices =>
  and_then (getitem_int choices 0) (fun choice =>
  getitem_key choice "text")).

(** ** The publishing collaborator *)

(** Modelled from the spec: [autopr.services.publish_service.PublishService]
    is not part of the sources at hand.  The spec gives it a stack of open
    sections (a Python list, the innermost section last) and the messages
    it has emitted. *)
Record PublishService : Type := mkPublishService {
  sections_stack : list string;
  updates : list string
}.

(** Modelled from the spec: [end_section()] pops one section. *)
Definition end_section_of (p : PublishService) : PublishService :=
  {| sections_stack := removelast (sections_stack p);
     updates := updates p |}.

(** Modelled from the spec: [publish_update(message)] emits a user-visible
    message. *)
Definition publish_update_of (message : string) (p : PublishService) : PublishService :=
  {| sections_stack := sections_stack p;
     updates := (updates p ++ [message])%list |}.

(** ** The retry policy (tenacity) *)

(** [openai_retry_if_union]: the disjunction of five
    [retry_if_exception_type] predicates.  The five classes have no
    subclasses among the exceptions above. *)
Definition openai_retry_if_union (e : exn) : bool :=
  match e with
  | Timeout _ => true
  | APIError _ => true
  | APIConnectionError _ => true
  | RateLimitError _ => true
  | ServiceUnavailableError _ => true
  | _ => false
  end.

(** The arguments of tenacity's [retry] decorator.  [reraise] is the
    keyword the source leaves at its default. *)
Record Retrying : Type := mkRetrying {
  retry_pred : exn -> bool;
  wait_min : Z;
  wait_max : Z;
  stop_max_attempt : nat;
  reraise : bool
}.

(** [retry(retry=..., wait=wait_random_exponential(min, max),
    stop=stop_after_attempt(n))] *)
Definition retry_decorator (pred : exn -> bool) (wmin wmax : Z) (n : nat) : Retrying :=
  {| retry_pred := pred;
     wait_min := wmin;
     wait_max := wmax;
     stop_max_attempt := n;
     reraise := false |}.

Definition openai_retry : Retrying :=
  retry_decorator openai_retry_if_union 1 240 8.

(** The upper end of the window [wait_random_exponential] draws the sleep
    from after attempt number [attempt]: [2 ^ (attempt - 1)] clamped to
    [min .. max].  The draw itself is random and is not modelled. *)
Definition wait_ceiling (r : Retrying) (attempt : nat) : Z :=
  Z.max (Z.max 0 (wait_min r)) (Z.min (2 ^ (Z.of_nat attempt - 1)) (wait_max r)).

(** ** Instances, requests and the world *)

Inductive RepoClass : Type :=
| CompletionsRepoBase
| OpenAIChatCompletionsRepo
| OpenAICompletionsRepo.

Inductive Level : Type := Info | Error.

Record LogEntry : Type := mkLogEntry {
  level : Level;
  event : string
}.

Record Message : Type := mkMessage {
  role : string;
  content : string
}.

Section Repo.

(** Temperatures are only stored and forwarded, tokens only counted: both
    types stay abstract. *)
Context {float : Type} {token : Type}.

(** [tokenizer.get_tokenizer(max_tokens)], as the [encode] of what it
    returns. *)
Variable get_tokenizer : Z -> string -> list token.

(** An instance of [CompletionsRepo] or of one of its subclasses. *)
Record CompletionsRepo : Type := mkCompletionsRepo {
  cls : RepoClass;
  publish_service : PublishService;
  model : string;
  max_tokens : Z;
  min_tokens : Z;
  context_limit : Z;
  temperature : float;
  tokenizer : string -> list token
}.

(** [CompletionsRepo.__init__], which the subclasses inherit. *)
Definition __init__ (c : RepoClass) (publish_service : PublishService)
    (model : string) (max_tokens min_tokens context_limit : Z)
    (temperature : float) : CompletionsRepo :=
  {| cls := c;
     publish_service := publish_service;
     model := model;
     max_tokens := max_tokens;
     min_tokens := min_tokens;
     context_limit := context_limit;
     temperature := temperature;
     tokenizer := get_tokenizer max_tokens |}.

(** What is submitted upstream: the keyword arguments of
    [openai.ChatCompletion.create] and of [openai.Completion.create]. *)
Inductive Request : Type :=
| ChatCompletion_create (model : string) (messages : list Message)
    (temperature : float) (max_tokens : Z)
| Completion_create (model : string) (prompt : string)
    (temperature : float) (max_tokens : Z).

Inductive Outcome : Type :=
| Returns (response : value)
| Raises (e : exn).

(** The upstream API: what the call number [n] (from 0) answers to a
    request. *)
Variable upstream : nat -> Request -> Outcome.

(** What a call can read and write: the instance, the requests submitted
    so far, the ceilings of the sleeps taken between attempts, and the log. *)
Record World : Type := mkWorld {
  self : CompletionsRepo;
  sent : list Request;
  backoff : list Z;
  log : list LogEntry
}.

Definition M (A : Type) : Type := World -> Result A * World.

Definition ret {A : Type} (a : A) : M A := fun w => (Ok a, w).

Definition raise {A : Type} (e : exn) : M A := fun w => (Raise e, w).

Definition bind {A B : Type} (m : M A) (k : A -> M B) : M B :=
  fun w =>
    match m w with
    | (Ok a, w') => k a w'
    | (Raise e, w') => (Raise e, w')
    end.

(** [try: m  except: handler] where the handler sees every exception and
    re-raises those its [except] clause does not name. *)
Definition try_except {A : Type} (m : M A) (handler : exn -> M A) : M A :=
  fun w =>
    match m w with
    | (Ok a, w') => (Ok a, w')
    | (Raise e, w') => handler e w'
    end.

Definition lift {A : Type} (r : Result A) : M A := fun w => (r, w).

Definition get_self : M CompletionsRepo := fun w => (Ok (self w), w).

Notation "x <- m ;; k" := (bind m (fun x => k))
  (at level 61, m at next level, right associativity).
Notation "m ;;; k" := (bind m (fun _ => k))
  (at level 61, right associativity).

(** [self.log.info(event, ...)] and [self.log.error(event, ...)] *)
Definition log_event (l : Level) (e : string) : M unit :=
  fun w =>
    (Ok tt, {| self := self w; sent := sent w; backoff := backoff w;
               log := (log w ++ [mkLogEntry l e])%list |}).

Definition set_publish_service (p : PublishService) (r : CompletionsRepo) : CompletionsRepo :=
  {| cls := cls r;
     publish_service := p;
     model := model r;
     max_tokens := max_tokens r;
     min_tokens := min_tokens r;
     context_limit := context_limit r;
     temperature := temperature r;
     tokenizer := tokenizer r |}.

Definition update_publish_service (f : PublishService -> PublishService) : M unit :=
  fun w =>
    (Ok tt, {| self := set_publish_service (f (publish_service (self w))) (self w);
               sent := sent w; backoff := backoff w; log := log w |}).

(** [self.publish_service.end_section()] *)
Definition end_section : M unit := update_publish_service end_section_of.

(** [self.publish_service.publish_update(message)] *)
Definition publish_update (message : string) : M unit :=
  update_publish_service (publish_update_of message).

Definition add_sent (req : Request) (w : World) : World :=
  {| self := self w; sent := (sent w ++ [req])%list;
     backoff := backoff w; log := log w |}.

(** A call of the upstream client: the request is recorded, the answer is
    the upstream's for this call number. *)
Definition create (req : Request) : M value :=
  fun w =>
    match upstream (List.length (sent w)) req with
    | Returns v => (Ok v, add_sent req w)
    | Raises e => (Raise e, add_sent req w)
    end.

(** The sleep tenacity takes after a failed attempt. *)
Definition sleep (r : Retrying) (attempt : nat) : World -> World :=
  fun w =>
    {| self := self w; sent := sent w;
       backoff := (backoff w ++ [wait_ceiling r attempt])%list; log := log w |}.

(** tenacity's [Retrying.__call__]: run the function; a result, or an
    exception the predicate rejects, ends the loop; otherwise stop when
    the attempt number has reached [stop_after_attempt] (raising
    [RetryError], or the last exception under [reraise]), else sleep and
    try again.  [left] counts the attempts still allowed after this one. *)
Fixpoint retrying {A : Type} (r : Retrying) (left attempt : nat) (fn : M A) : M A :=
  fun w =>
    match fn w with
    | (Ok a, w') => (Ok a, w')
    | (Raise e, w') =>
        if retry_pred r e then
          match left with
          | O => (Raise (if reraise r then e else RetryError e), w')
          | S left' => retrying r left' (S attempt) fn (sleep r attempt w')
          end
        else (Raise e, w')
    end.

Definition retry {A : Type} (r : Retrying) (fn : M A) : M A :=
  retrying r (stop_max_attempt r - 1) 1 fn.

(** ** The chat-style formatter *)

(** The message list [OpenAIChatCompletionsRepo._complete] builds. *)
Definition chat_messages (prompt system_prompt : string)
    (examples : list (string * string)) : list Message :=
  let messages := [mkMessage "system" system_prompt] in
  let messages :=
    fold_left
      (fun messages example =>
         (messages ++ [mkMessage "user" (fst example)])
           ++ [mkMessage "assistant" (snd example)])%list
      examples messages in
  (messages ++ [mkMessage "user" prompt])%list.

(** [response is None or not isinstance(response, dict)] *)
Definition invalid_response (openai_response : value) : bool :=
  is_none openai_response || negb (is_dict openai_response).

(** The body of [OpenAIChatCompletionsRepo._complete], under the decorator. *)
Definition OpenAIChatCompletionsRepo_body (prompt system_prompt : string)
    (examples : list (string * string)) (max_tokens' : Z) (temperature' : float)
    : M value :=
  let messages := chat_messages prompt system_prompt examples in
  r <- get_self ;;
  openai_response <-
    create (ChatCompletion_create (model r) messages temperature' max_tokens') ;;
  if invalid_response openai_response then
    log_event Error "OpenAI chat completion returned invalid response" ;;;
    ret (VStr "")
  else
    log_event Info "Ran OpenAI chat completion" ;;;
    lift (chat_content openai_response).

(** ** The raw-text formatter *)

(** The text [OpenAICompletionsRepo._complete] builds.  Its first
    statement rebinds the parameter [prompt]. *)
Definition text_prompt (prompt system_prompt : string)
    (examples : list (string * string)) : string :=
  let prompt := system_prompt in
  let prompt :=
    fold_left
      (fun prompt example =>
         prompt ++ (nl ++ nl ++ fst example ++ nl ++ snd example))%string
      examples prompt in
  (prompt ++ (nl ++ nl ++ prompt))%string.

(** The body of [OpenAICompletionsRepo._complete], under the decorator. *)
Definition OpenAICompletionsRepo_body (prompt system_prompt : string)
    (examples : list (string * string)) (max_tokens' : Z) (temperature' : float)
    : M value :=
  let prompt := text_prompt prompt system_prompt examples in
  r <- get_self ;;
  openai_response <-
    create (Completion_create (model r) prompt temperature' max_tokens') ;;
  log_event Info "Ran OpenAI completion" ;;;
  if invalid_response openai_response then
    log_event Error "OpenAI chat completion returned invalid response" ;;;
    ret (VStr "")
  else
    lift (text_content openai_response).

(** [self._complete(...)]: the method of the instance's class.  The base
    class raises; each subclass wraps its body in the retry decorator. *)
Definition _complete (prompt system_prompt : string)
    (examples : list (string * string)) (max_tokens' : Z) (temperature' : float)
    : M value :=
  r <- get_self ;;
  match cls r with
  | CompletionsRepoBase => raise NotImplementedError
  | OpenAIChatCompletionsRepo =>
      retry openai_retry
        (OpenAIChatCompletionsRepo_body prompt system_prompt examples
           max_tokens' temperature')
  | OpenAICompletionsRepo =>
      retry openai_retry
        (OpenAICompletionsRepo_body prompt system_prompt examples
           max_tokens' temperature')
  end.

(** ** The base class: [complete] *)

Definition default_system_prompt : string := "You are a helpful assistant.".

Definition gpt4_marker : string := "`gpt-4` does not exist".

Definition gpt4_warning : string :=
  "⚠️⚠️⚠️ Your OpenAI API key does not have access to the `gpt-4` model. "
  ++ "Please note that ChatGPT Plus does not give you access to the `gpt-4` API; "
  ++ "you need to sign up on [the GPT-4 API waitlist](https://openai.com/waitlist/gpt-4-api). ".

(** [while len(self.publish_service.sections_stack) > 1:
       self.publish_service.end_section()].
    Every turn pops a section, so a fuel equal to the depth on entry is
    never used up. *)
Fixpoint unwind_sections (fuel : nat) : M unit :=
  match fuel with
  | O => ret tt
  | S fuel' =>
      r <- get_self ;;
      if 1 <? Z.of_nat (List.length (sections_stack (publish_service r))) then
        end_section ;;; unwind_sections fuel'
      else ret tt
  end.

(** The [except openai.error.InvalidRequestError as e] clause. *)
Definition on_invalid_request (e : exn) : M value :=
  match e with
  | InvalidRequestError msg =>
      if negb (contains gpt4_marker msg) then raise e
      else
        r <- get_self ;;
        unwind_sections (List.length (sections_stack (publish_service r))) ;;;
        publish_update gpt4_warning ;;;
        raise e
  | _ => raise e
  end.

(** The budget line: [min(self.max_tokens, self.context_limit - length)]. *)
Definition budget (r : CompletionsRepo) (prompt : string) : Z :=
  let length := Z.of_nat (List.length (tokenizer r prompt)) in
  Z.min (max_tokens r) (context_limit r - length).

Definition complete (prompt : string) (system_prompt : option string)
    (examples : option (list (string * string))) (temperature' : option float)
    : M value :=
  r <- get_self ;;
  let examples := match examples with None => [] | Some l => l end in
  let system_prompt :=
    match system_prompt with None => default_system_prompt | Some s => s end in
  let temperature' :=
    match temperature' with None => temperature r | Some t => t end in
  let max_tokens' := budget r prompt in
  log_event Info "Running completion" ;;;
  result <-
    try_except
      (_complete prompt system_prompt examples max_tokens' temperature')
      on_invalid_request ;;
  log_event Info "Completed" ;;;
  ret result.

(** ** The factory *)

(** The class attribute [models]; the base class only annotates it. *)
Definition models (c : RepoClass) : list string :=
  match c with
  | CompletionsRepoBase => []
  | OpenAIChatCompletionsRepo => ["gpt-4"; "gpt-3.5-turbo"]
  | OpenAICompletionsRepo => ["text-davinci-003"]
  end.

(** [CompletionsRepo.__subclasses__()], in definition order. *)
Definition __subclasses__ : list RepoClass :=
  [OpenAIChatCompletionsRepo; OpenAICompletionsRepo].

(** The [for] loop of the factory, up to its [return]. *)
Fixpoint first_implementation (model : string) (repo_implementations : list RepoClass)
    : option RepoClass :=
  match repo_implementations with
  | [] => None
  | repo_implementation :: rest =>
      if existsb (String.eqb model) (models repo_implementation)
      then Some repo_implementation
      else first_implementation model rest
  end.

Definition get_completions_repo (publish_service : PublishService)
    (model : string) (max_tokens min_tokens context_limit : Z)
    (temperature : float) : Result CompletionsRepo :=
  match first_implementation model __subclasses__ with
  | Some repo_implementation =>
      Ok (__init__ repo_implementation publish_service model max_tokens
            min_tokens context_limit temperature)
  | None => Raise (ValueError ("Model " ++ model ++ " not implemented"))
  end.

End Repo.

(** ** Statement vocabulary *)

Section Vocabulary.

Context {float : Type} {token : Type}.

(** The five configuration fields of an instance agree. *)
Definition same_config (r r' : @CompletionsRepo float token) : Prop :=
  model r' = model r
  /\ max_tokens r' = max_tokens r
  /\ min_tokens r' = min_tokens r
  /\ context_limit r' = context_limit r
  /\ temperature r' = temperature r.

(** The class and the configuration fields of an instance. *)
Definition configuration (r : @CompletionsRepo float token)
    : RepoClass * string * Z * Z * Z * float :=
  (cls r, model r, max_tokens r, min_tokens r, context_limit r, temperature r).

(** The request an instance of a formatter class submits for the
    arguments of [_complete]. *)
Definition request_of (r : @CompletionsRepo float token) (prompt system_prompt : string)
    (examples : list (string * string)) (max_tokens' : Z) (temperature' : float)
    : Request :=
  match cls r with
  | OpenAICompletionsRepo =>
      Completion_create (model r) (text_prompt prompt system_prompt examples)
        temperature' max_tokens'
  | _ =>
      ChatCompletion_create (model r) (chat_messages prompt system_prompt examples)
        temperature' max_tokens'
  end.

Definition request_max_tokens (req : @Request float) : Z :=
  match req with
  | ChatCompletion_create _ _ _ n => n
  | Completion_create _ _ _ n => n
  end.

(** The upstream answers the calls number [n], ..., [n + j - 1] for [req]
    with errors the retry policy retries on. *)
Definition retryable_run (upstream : nat -> @Request float -> Outcome)
    (req : Request) (n j : nat) : Prop :=
  forall i, (i < j)%nat ->
    exists e, upstream (n + i)%nat req = Raises e /\ openai_retry_if_union e = true.

(** The spec's wording of the raw-text prefix: the system prompt followed
    by [\n\n{input}\n{output}] for each example, in order. *)
Fixpoint example_lines (examples : list (string * string)) : string :=
  match examples with
  | [] => ""
  | (input, output) :: rest =>
      (nl ++ nl ++ input ++ nl ++ output) ++ example_lines rest
  end.

Definition computed_prompt (system_prompt : string)
    (examples : list (string * string)) : string :=
  system_prompt ++ example_lines examples.

(** The spec's wording of the chat message list: one system message, a
    user and an assistant message per example, the prompt as the last
    user message. *)
Definition example_turns (examples : list (string * string)) : list Message :=
  flat_map
    (fun example =>
       [mkMessage "user" (fst example); mkMessage "assistant" (snd example)])
    examples.

Definition expected_messages (system_prompt : string)
    (examples : list (string * string)) (prompt : string) : list Message :=
  (mkMessage "system" system_prompt :: example_turns examples
   ++ [mkMessage "user" prompt])%list.

(** An optional argument, or its default. *)
Definition supplied {A : Type} (o : option A) (default : A) : A :=
  match o with
  | None => default
  | Some a => a
  end.

(** The body the retry decorator wraps in class [c]. *)
Definition body_of (c : RepoClass) (upstream : nat -> @Request float -> Outcome)
    (prompt system_prompt : string) (examples : list (string * string))
    (max_tokens' : Z) (temperature' : float) : @M float token value :=
  match c with
  | OpenAICompletionsRepo =>
      OpenAICompletionsRepo_body upstream prompt system_prompt examples
        max_tokens' temperature'
  | _ =>
      OpenAIChatCompletionsRepo_body upstream prompt system_prompt examples
        max_tokens' temperature'
  end.

(** The request [complete] has the formatter submit for its arguments. *)
Definition submission (w : @World float token) (prompt : string)
    (system_prompt : option string) (examples : option (list (string * string)))
    (temperature' : option float) : Request :=
  request_of (self w) prompt
    (supplied system_prompt default_system_prompt)
    (supplied examples [])
    (budget (self w) prompt)
    (supplied temperature' (temperature (self w))).

(** The text a response yields for an instance of class [c]. *)
Definition response_content (c : RepoClass) (openai_response : value) : Result value :=
  match c with
  | OpenAICompletionsRepo => text_content openai_response
  | _ => chat_content openai_response
  end.

(** The world after [j] failed attempts, the first of them numbered
    [attempt], each followed by a sleep. *)
Definition after_failures (req : @Request float) (attempt j : nat)
    (w : @World float token) : World :=
  {| self := self w;
     sent := (sent w ++ repeat req j)%list;
     backoff := (backoff w ++ map (wait_ceiling openai_retry) (seq attempt j))%list;
     log := log w |}.

(** The section stack cut down to its root. *)
Definition unwound (p : PublishService) : PublishService :=
  {| sections_stack := firstn 1 (sections_stack p); updates := updates p |}.

(** A computation leaves the observation [f] of the world as it was. *)
Definition preserves {A B : Type} (f : @World float token -> B) (m : M A) : Prop :=
  forall w, f (snd (m w)) = f w.

(** A response of the shape the chat endpoint gives. *)
Definition chat_response (text : string) : value :=
  VDict [("choices", VList [VDict [("message", VDict [("content", VStr text)])]])].

(** A response of the shape the text endpoint gives. *)
Definition text_response (text : string) : value :=
  VDict [("choices", VList [VDict [("text", VStr text)]])].

(** A mocked upstream that plays a script, then keeps giving [last]. *)
Definition scripted (script : list Outcome) (last : Outcome)
    : nat -> @Request float -> Outcome :=
  fun n _ => nth n script last.

End Vocabulary.

(** One token per character. *)
Definition char_tokenizer (_ : Z) (s : string) : list ascii := list_ascii_of_string s.

(** An instance of each formatter and a world around it, for the examples:
    temperatures are in tenths. *)
Definition sample_publisher : PublishService :=
  {| sections_stack := ["root"; "plan"; "codegen"]; updates := ["started"] |}.

Definition sample_repo (c : RepoClass) (context_limit : Z) : @CompletionsRepo Z ascii :=
  __init__ char_tokenizer c sample_publisher "gpt-4" 2000 1000 context_limit 8.

Definition sample_world (c : RepoClass) (context_limit : Z) : @World Z ascii :=
  {| self := sample_repo c context_limit; sent := []; backoff := []; log := [] |}.

(** Mocked upstreams: no access to the model, after a rate limit or at
    once; a request too long; an upstream that only times out; seven
    retryable failures and then a chat response. *)
Definition no_access_message : string := "The model: `gpt-4` does not exist".

Definition upstream_no_access_on_retry : nat -> @Request Z -> Outcome :=
  scripted [Raises (RateLimitError "slow down")]
    (Raises (InvalidRequestError no_access_message)).

Definition upstream_no_access : nat -> @Request Z -> Outcome :=
  scripted [] (Raises (InvalidRequestError no_access_message)).

Definition upstream_too_long : nat -> @Request Z -> Outcome :=
  scripted [] (Raises (InvalidRequestError "maximum context length exceeded")).

Definition upstream_down : nat -> @Request Z -> Outcome :=
  scripted [] (Raises (Timeout "timed out")).

Definition seven_failures : list Outcome :=
  [Raises (Timeout "timed out"); Raises (APIError "bad gateway");
   Raises (APIConnectionError "reset"); Raises (RateLimitError "slow down");
   Raises (ServiceUnavailableError "overloaded"); Raises (Timeout "timed out");
   Raises (RateLimitError "slow down")].

Definition upstream_eighth_time_lucky : nat -> @Request Z -> Outcome :=
  scripted seven_failures (Returns (chat_response "Hello!")).

(** A chat instance configured for another model than gpt-4. *)
Definition turbo_world : @World Z ascii :=
  {| self := __init__ char_tokenizer OpenAIChatCompletionsRepo sample_publisher
               "gpt-3.5-turbo" 2000 1000 4096 8;
     sent := []; backoff := []; log := [] |}.

(** ** Vocabulary for the traces of a call *)

Section Traces.

Context {float : Type} {token : Type}.

(** What a body under the decorator returns for a response. *)
Definition response_text (c : RepoClass) (openai_response : value) : Result value :=
  if invalid_response openai_response then Ok (VStr "")
  else response_content c openai_response.

(** The log lines a body under the decorator writes for a response. *)
Definition response_log (c : RepoClass) (openai_response : value) : list LogEntry :=
  match c with
  | OpenAICompletionsRepo =>
      mkLogEntry Info "Ran OpenAI completion"
      :: (if invalid_response openai_response
          then [mkLogEntry Error "OpenAI chat completion returned invalid response"]
          else [])
  | _ =>
      if invalid_response openai_response
      then [mkLogEntry Error "OpenAI chat completion returned invalid response"]
      else [mkLogEntry Info "Ran OpenAI chat completion"]
  end.

Definition add_log (entries : list LogEntry) (w : @World float token) : World :=
  {| self := self w; sent := sent w; backoff := backoff w;
     log := (log w ++ entries)%list |}.

(** The same world around an instance whose [min_tokens] is [n]. *)
Definition with_min_tokens (n : Z) (w : @World float token) : World :=
  {| self :=
       {| cls := cls (self w);
          publish_service := publish_service (self w);
          model := model (self w);
          max_tokens := max_tokens (self w);
          min_tokens := n;
          context_limit := context_limit (self w);
          temperature := temperature (self w);
          tokenizer := tokenizer (self w) |};
     sent := sent w; backoff := backoff w; log := log w |}.

(** A computation does the same around an instance whose [min_tokens] is
    another. *)
Definition ignores_min_tokens {A : Type} (n : Z) (m : @M float token A) : Prop :=
  forall w, m (with_min_tokens n w) = (fst (m w), with_min_tokens n (snd (m w))).

Definition request_temperature (req : @Request float) : float :=
  match req with
  | ChatCompletion_create _ _ t _ => t
  | Completion_create _ _ t _ => t
  end.

End Traces.

(** More mocked upstreams: a key that is refused after a timeout, a
    response with no choice in it, no response at all. *)
Definition upstream_refused : nat -> @Request Z -> Outcome :=
  scripted [Raises (Timeout "timed out")] (Raises (AuthenticationError "bad key")).

Definition upstream_no_choice : nat -> @Request Z -> Outcome :=
  scripted [] (Returns (VDict [("choices", VList [])])).

Definition upstream_silent : nat -> @Request Z -> Outcome :=
  scripted [Raises (RateLimitError "slow down")] (Returns VNone).

(** The upstream refuses the model a turbo instance asks for; a world
    whose publisher has no open section at all. *)
Definition upstream_no_access_turbo : nat -> @Request Z -> Outcome :=
  scripted [] (Raises (InvalidRequestError "The model: `gpt-3.5-turbo` does not exist")).

Definition rootless_world : @World Z ascii :=
  {| self := __init__ char_tokenizer OpenAIChatCompletionsRepo
               {| sections_stack := []; updates := [] |}
               "gpt-4" 2000 1000 8192 8;
     sent := []; backoff := []; log := [] |}.

(** * Properties *)

(** ** Frames: what each computation leaves alone *)

Section Frames.

Context {float : Type} {token : Type}.
Variable upstream : nat -> @Request float -> Outcome.

#[local] Abbreviation World := (@World float token).
#[local] Abbreviation M := (@M float token).
#[local] Abbreviation Repo := (@CompletionsRepo float token).
#[local] Abbreviation Requests := (list (@Request float)).

Lemma preserves_ret {A B : Type} (f : World -> B) (a : A) : preserves f (ret a).
Proof. intros w. reflexivity. Qed.

Lemma preserves_raise {A B : Type} (f : World -> B) (e : exn) :
  preserves f (raise e : M A).
Proof. intros w. reflexivity. Qed.

Lemma preserves_lift {A B : Type} (f : World -> B) (r : Result A) :
  preserves f (lift r).
Proof. intros w. reflexivity. Qed.

Lemma preserves_get_self {B : Type} (f : World -> B) : preserves f get_self.
Proof. intros w. reflexivity. Qed.

Lemma preserves_bind {A A' B : Type} (f : World -> B) (m : M A) (k : A -> M A') :
  preserves f m -> (forall a, preserves f (k a)) -> preserves f (bind m k).
Proof.
  intros Hm Hk w. unfold bind.
  specialize (Hm w). destruct (m w) as [[a | e] w1]; simpl in *.
  - rewrite Hk. exact Hm.
  - exact Hm.
Qed.

Lemma preserves_try_except {A B : Type} (f : World -> B) (m : M A)
    (handler : exn -> M A) :
  preserves f m -> (forall e, preserves f (handler e)) ->
  preserves f (try_except m handler).
Proof.
  intros Hm Hh w. unfold try_except.
  specialize (Hm w). destruct (m w) as [[a | e] w1]; simpl in *.
  - exact Hm.
  - rewrite Hh. exact Hm.
Qed.

Lemma preserves_retrying {A B : Type} (f : World -> B) (r : Retrying) (fn : M A) :
  preserves f fn ->
  (forall attempt w, f (sleep r attempt w) = f w) ->
  forall left attempt, preserves f (retrying r left attempt fn).
Proof.
  intros Hfn Hsleep left.
  induction left as [| left IH]; intros attempt w; simpl;
    specialize (Hfn w); destruct (fn w) as [[a | e] w1]; simpl in *;
    try exact Hfn; destruct (retry_pred r e); simpl; try exact Hfn.
  rewrite IH, Hsleep. exact Hfn.
Qed.

(** Only [update_publish_service] writes to the instance, only [create]
    to the requests. *)

Lemma log_event_self (l : Level) (e : string) : preserves (@self float token) (log_event l e).
Proof. intros w. reflexivity. Qed.

Lemma log_event_sent (l : Level) (e : string) : preserves (@sent float token) (log_event l e).
Proof. intros w. reflexivity. Qed.

Lemma create_self (req : Request) : preserves (@self float token) (create upstream req).
Proof. intros w. unfold create. destruct (upstream _ _); reflexivity. Qed.

Lemma update_publish_service_sent (g : PublishService -> PublishService) :
  preserves (@sent float token) (update_publish_service g).
Proof. intros w. reflexivity. Qed.

Lemma unwind_sections_sent (fuel : nat) : preserves (@sent float token) (unwind_sections fuel).
Proof.
  induction fuel as [| fuel IH]; simpl.
  - apply preserves_ret.
  - apply preserves_bind; [apply preserves_get_self |].
    intros r. destruct (1 <? _).
    + apply preserves_bind; [apply update_publish_service_sent | intros _; exact IH].
    + apply preserves_ret.
Qed.

Lemma on_invalid_request_sent (e : exn) : preserves (@sent float token) (on_invalid_request e).
Proof.
  destruct e; try apply preserves_raise.
  simpl. destruct (negb _); [apply preserves_raise |].
  apply preserves_bind; [apply preserves_get_self | intros r].
  apply preserves_bind; [apply unwind_sections_sent | intros _].
  apply preserves_bind; [apply update_publish_service_sent | intros _].
  apply preserves_raise.
Qed.

Lemma update_publish_service_configuration (g : PublishService -> PublishService) :
  preserves (fun w : World => configuration (self w)) (update_publish_service g).
Proof. intros w. reflexivity. Qed.

Lemma unwind_sections_configuration (fuel : nat) :
  preserves (fun w : World => configuration (self w)) (unwind_sections fuel).
Proof.
  induction fuel as [| fuel IH]; simpl.
  - apply preserves_ret.
  - apply preserves_bind; [apply preserves_get_self |].
    intros r. destruct (1 <? _).
    + apply preserves_bind;
        [apply update_publish_service_configuration | intros _; exact IH].
    + apply preserves_ret.
Qed.

Lemma on_invalid_request_configuration (e : exn) :
  preserves (fun w : World => configuration (self w)) (on_invalid_request e).
Proof.
  destruct e; try apply preserves_raise.
  simpl. destruct (negb _); [apply preserves_raise |].
  apply preserves_bind; [apply preserves_get_self | intros r].
  apply preserves_bind; [apply unwind_sections_configuration | intros _].
  apply preserves_bind; [apply update_publish_service_configuration | intros _].
  apply preserves_raise.
Qed.

(** The two bodies and the decorated method leave the instance alone. *)

Lemma chat_body_self prompt system_prompt examples max_tokens' temperature' :
  preserves (@self float token)
    (OpenAIChatCompletionsRepo_body upstream prompt system_prompt examples
       max_tokens' temperature').
Proof.
  unfold OpenAIChatCompletionsRepo_body.
  apply preserves_bind; [apply preserves_get_self | intros r].
  apply preserves_bind; [apply create_self | intros v].
  destruct (invalid_response v);
    (apply preserves_bind; [apply log_event_self | intros _]);
    [apply preserves_ret | apply preserves_lift].
Qed.

Lemma text_body_self prompt system_prompt examples max_tokens' temperature' :
  preserves (@self float token)
    (OpenAICompletionsRepo_body upstream prompt system_prompt examples
       max_tokens' temperature').
Proof.
  unfold OpenAICompletionsRepo_body.
  apply preserves_bind; [apply preserves_get_self | intros r].
  apply preserves_bind; [apply create_self | intros v].
  apply preserves_bind; [apply log_event_self | intros _].
  destruct (invalid_response v).
  - apply preserves_bind; [apply log_event_self | intros _]. apply preserves_ret.
  - apply preserves_lift.
Qed.

Lemma _complete_self prompt system_prompt examples max_tokens' temperature' :
  preserves (@self float token)
    (_complete upstream prompt system_prompt examples max_tokens' temperature').
Proof.
  unfold _complete.
  apply preserves_bind; [apply preserves_get_self | intros r].
  destruct (cls r).
  - apply preserves_raise.
  - apply preserves_retrying; [apply chat_body_self | reflexivity].
  - apply preserves_retrying; [apply text_body_self | reflexivity].
Qed.

Lemma complete_configuration prompt system_prompt examples temperature' :
  preserves (fun w : World => configuration (self w))
    (complete upstream prompt system_prompt examples temperature').
Proof.
  unfold complete.
  apply preserves_bind; [apply preserves_get_self | intros r].
  apply preserves_bind; [intros w; reflexivity | intros _].
  apply preserves_bind.
  - apply preserves_try_except.
    + intros w. now rewrite _complete_self.
    + apply on_invalid_request_configuration.
  - intros result.
    apply preserves_bind; [intros w; reflexivity | intros _].
    apply preserves_ret.
Qed.

(** ** What is submitted, whatever the upstream answers *)

Lemma chat_body_sent prompt system_prompt examples max_tokens' temperature' (w : World) :
  sent (snd (OpenAIChatCompletionsRepo_body upstream prompt system_prompt examples
               max_tokens' temperature' w))
  = (sent w
     ++ [ChatCompletion_create (model (self w))
           (chat_messages prompt system_prompt examples) temperature' max_tokens'])%list.
Proof.
  unfold OpenAIChatCompletionsRepo_body, bind, get_self, create. simpl.
  destruct (upstream _ _) as [v | e]; simpl; [| reflexivity].
  destruct (invalid_response v); reflexivity.
Qed.

Lemma text_body_sent prompt system_prompt examples max_tokens' temperature' (w : World) :
  sent (snd (OpenAICompletionsRepo_body upstream prompt system_prompt examples
               max_tokens' temperature' w))
  = (sent w
     ++ [Completion_create (model (self w))
           (text_prompt prompt system_prompt examples) temperature' max_tokens'])%list.
Proof.
  unfold OpenAICompletionsRepo_body, bind, get_self, create. simpl.
  destruct (upstream _ _) as [v | e]; simpl; [| reflexivity].
  destruct (invalid_response v); reflexivity.
Qed.

(** The retry loop runs its function at least once and at most
    [left + 1] times, with the same request each time. *)
Lemma retrying_sent {A : Type} (r : Retrying) (fn : M A) (req : World -> Request) :
  preserves (@self float token) fn ->
  (forall w, sent (snd (fn w)) = (sent w ++ [req w])%list) ->
  (forall w w', self w' = self w -> req w' = req w) ->
  forall left attempt w,
    exists k, (1 <= k <= S left)%nat
      /\ sent (snd (retrying r left attempt fn w)) = (sent w ++ repeat (req w) k)%list.
Proof.
  intros Hself Hsent Hreq left.
  induction left as [| left IH]; intros attempt w; simpl;
    pose proof (Hself w) as Hs; pose proof (Hsent w) as Hw;
    destruct (fn w) as [[a | e] w1]; simpl in *;
    try (exists 1%nat; split; [lia | exact Hw]);
    destruct (retry_pred r e); simpl;
    try (exists 1%nat; split; [lia | exact Hw]).
  destruct (IH (S attempt) (sleep r attempt w1)) as [k [Hk Hsk]].
  exists (S k). split; [lia |].
  rewrite Hsk. simpl. rewrite Hw, <- app_assoc. simpl.
  rewrite (Hreq w (sleep r attempt w1)); [reflexivity | exact Hs].
Qed.

Lemma _complete_sent prompt system_prompt examples max_tokens' temperature' (w : World) :
  cls (self w) <> CompletionsRepoBase ->
  exists k, (1 <= k <= 8)%nat
    /\ sent (snd (_complete upstream prompt system_prompt examples max_tokens'
                    temperature' w))
       = (sent w
          ++ repeat (request_of (self w) prompt system_prompt examples max_tokens'
                       temperature') k)%list.
Proof.
  intros Hcls. unfold _complete, bind, get_self, request_of. simpl.
  destruct (cls (self w)); [congruence | |].
  - apply (retrying_sent openai_retry _
             (fun w => ChatCompletion_create (model (self w)) _ _ _)).
    + apply chat_body_self.
    + intros w0. apply chat_body_sent.
    + intros w0 w1 E. now rewrite E.
  - apply (retrying_sent openai_retry _
             (fun w => Completion_create (model (self w)) _ _ _)).
    + apply text_body_self.
    + intros w0. apply text_body_sent.
    + intros w0 w1 E. now rewrite E.
Qed.

Lemma bind_preserved {A A' B : Type} (f : World -> B) (m : M A) (k : A -> M A') w :
  (forall a, preserves f (k a)) -> f (snd (bind m k w)) = f (snd (m w)).
Proof.
  intros Hk. unfold bind. destruct (m w) as [[a | e] w1]; simpl; [apply Hk | reflexivity].
Qed.

Lemma try_except_preserved {A B : Type} (f : World -> B) (m : M A)
    (handler : exn -> M A) w :
  (forall e, preserves f (handler e)) -> f (snd (try_except m handler w)) = f (snd (m w)).
Proof.
  intros Hh. unfold try_except.
  destruct (m w) as [[a | e] w1]; simpl; [reflexivity | apply Hh].
Qed.

Lemma complete_sent prompt system_prompt examples temperature' (w : World) :
  cls (self w) <> CompletionsRepoBase ->
  exists k, (1 <= k <= 8)%nat
    /\ sent (snd (complete upstream prompt system_prompt examples temperature' w))
       = (sent w
          ++ repeat (submission w prompt system_prompt examples temperature') k)%list.
Proof.
  intros Hcls. unfold complete, submission.
  change (bind get_self ?k w) with (k (self w) w). cbv beta.
  change (bind (log_event ?l ?e) ?k w) with (k tt (snd (log_event l e w))).
  cbv beta.
  rewrite bind_preserved.
  2:{ intros result. apply preserves_bind; [apply log_event_sent | intros _].
      apply preserves_ret. }
  rewrite try_except_preserved by apply on_invalid_request_sent.
  apply (_complete_sent _ _ _ _ _ (snd (log_event Info "Running completion" w))).
  exact Hcls.
Qed.

End Frames.

(** ** Runs: what the retry loop does for a given upstream *)

Section Runs.

Context {float : Type} {token : Type}.
Variable upstream : nat -> @Request float -> Outcome.

#[local] Abbreviation World := (@World float token).
#[local] Abbreviation M := (@M float token).

Lemma retrying_done {A : Type} (r : Retrying) (fn : M A) left attempt (w : World) :
  match fst (fn w) with
  | Ok _ => True
  | Raise e => retry_pred r e = false
  end ->
  retrying r left attempt fn w = fn w.
Proof.
  destruct left; simpl; destruct (fn w) as [[a | e] w1]; simpl;
    intros H; try reflexivity; rewrite H; reflexivity.
Qed.

Lemma retrying_again {A : Type} (r : Retrying) (fn : M A) left attempt (w w1 : World) e :
  fn w = (Raise e, w1) -> retry_pred r e = true ->
  retrying r (S left) attempt fn w
  = retrying r left (S attempt) fn (sleep r attempt w1).
Proof. intros E H. simpl. rewrite E, H. reflexivity. Qed.

Lemma retrying_exhausted {A : Type} (r : Retrying) (fn : M A) attempt (w w1 : World) e :
  fn w = (Raise e, w1) -> retry_pred r e = true ->
  retrying r 0 attempt fn w = (Raise (if reraise r then e else RetryError e), w1).
Proof. intros E H. simpl. rewrite E, H. reflexivity. Qed.

Lemma after_failures_0 (req : Request) attempt (w : World) :
  after_failures req attempt 0 w = w.
Proof.
  destruct w. unfold after_failures. simpl. now rewrite !app_nil_r.
Qed.

Lemma after_failures_S (req : Request) attempt j (w : World) :
  after_failures req (S attempt) j (sleep openai_retry attempt (add_sent req w))
  = after_failures req attempt (S j) w.
Proof.
  unfold after_failures. simpl. now rewrite <- !app_assoc.
Qed.

Lemma retryable_run_S (req : Request) n j :
  retryable_run upstream req n (S j) ->
  (exists e, upstream n req = Raises e /\ openai_retry_if_union e = true)
  /\ retryable_run upstream req (S n) j.
Proof.
  intros H. split.
  - destruct (H 0%nat) as [e He]; [lia |]. rewrite Nat.add_0_r in He. now exists e.
  - intros i Hi. destruct (H (S i)) as [e He]; [lia |].
    rewrite Nat.add_succ_r in He. now exists e.
Qed.

(** A body fails as the upstream does. *)
Lemma body_of_raises c prompt system_prompt examples max_tokens' temperature'
    (w : World) e :
  cls (self w) = c ->
  upstream (List.length (sent w))
    (request_of (self w) prompt system_prompt examples max_tokens' temperature')
  = Raises e ->
  body_of c upstream prompt system_prompt examples max_tokens' temperature' w
  = (Raise e,
     add_sent (request_of (self w) prompt system_prompt examples max_tokens'
                 temperature') w).
Proof.
  unfold request_of. intros Hc. rewrite Hc.
  destruct c; simpl; intros Hup;
    unfold OpenAIChatCompletionsRepo_body, OpenAICompletionsRepo_body,
      bind, get_self, create; simpl; rewrite Hup; reflexivity.
Qed.

(** A body maps a response to a text, or to the empty string when the
    response is [None] or no dict. *)
Lemma body_of_returns c prompt system_prompt examples max_tokens' temperature'
    (w : World) v :
  cls (self w) = c ->
  upstream (List.length (sent w))
    (request_of (self w) prompt system_prompt examples max_tokens' temperature')
  = Returns v ->
  fst (body_of c upstream prompt system_prompt examples max_tokens' temperature' w)
  = if invalid_response v then Ok (VStr "") else response_content c v.
Proof.
  unfold request_of. intros Hc. rewrite Hc.
  destruct c; simpl; intros Hup;
    unfold OpenAIChatCompletionsRepo_body, OpenAICompletionsRepo_body,
      bind, get_self, create; simpl; rewrite Hup; simpl;
    destruct (invalid_response v); reflexivity.
Qed.

Lemma body_of_self c prompt system_prompt examples max_tokens' temperature' :
  preserves (@self float token)
    (body_of c upstream prompt system_prompt examples max_tokens' temperature').
Proof.
  destruct c; simpl; first [apply chat_body_self | apply text_body_self].
Qed.

Lemma _complete_body prompt system_prompt examples max_tokens' temperature' (w : World) :
  cls (self w) <> CompletionsRepoBase ->
  _complete upstream prompt system_prompt examples max_tokens' temperature' w
  = retry openai_retry
      (body_of (cls (self w)) upstream prompt system_prompt examples max_tokens'
         temperature') w.
Proof.
  intros Hcls. unfold _complete, bind, get_self. simpl.
  destruct (cls (self w)); [congruence | reflexivity | reflexivity].
Qed.

(** After [j] retryable failures the loop stands at attempt [j + 1]. *)
Lemma retrying_skip c prompt system_prompt examples max_tokens' temperature' :
  forall j left attempt (w : World),
    cls (self w) = c ->
    retryable_run upstream
      (request_of (self w) prompt system_prompt examples max_tokens' temperature')
      (List.length (sent w)) j ->
    retrying openai_retry (j + left) attempt
      (body_of c upstream prompt system_prompt examples max_tokens' temperature') w
    = retrying openai_retry left (attempt + j)
        (body_of c upstream prompt system_prompt examples max_tokens' temperature')
        (after_failures
           (request_of (self w) prompt system_prompt examples max_tokens'
              temperature') attempt j w).
Proof.
  induction j as [| j IH]; intros left attempt w Hc Hrun.
  - now rewrite after_failures_0, Nat.add_0_r.
  - apply retryable_run_S in Hrun. destruct Hrun as [[e [Hup He]] Hrun].
    change (S j + left)%nat with (S (j + left)).
    rewrite (retrying_again openai_retry _ _ _ w _ e
               (body_of_raises c _ _ _ _ _ w e Hc Hup) He).
    rewrite IH.
    + simpl self. rewrite after_failures_S. now rewrite Nat.add_succ_r.
    + exact Hc.
    + simpl. rewrite length_app, Nat.add_comm. exact Hrun.
Qed.

Lemma after_failures_calls (req : Request) attempt j (w : World) :
  List.length (sent (after_failures req attempt j w)) = (List.length (sent w) + j)%nat.
Proof. simpl. now rewrite length_app, repeat_length. Qed.

Lemma _complete_after prompt system_prompt examples max_tokens' temperature'
    (w : World) j :
  cls (self w) <> CompletionsRepoBase ->
  (j <= 7)%nat ->
  retryable_run upstream
    (request_of (self w) prompt system_prompt examples max_tokens' temperature')
    (List.length (sent w)) j ->
  _complete upstream prompt system_prompt examples max_tokens' temperature' w
  = retrying openai_retry (7 - j) (1 + j)
      (body_of (cls (self w)) upstream prompt system_prompt examples max_tokens'
         temperature')
      (after_failures
         (request_of (self w) prompt system_prompt examples max_tokens' temperature')
         1 j w).
Proof.
  intros Hcls Hj Hrun. rewrite _complete_body by exact Hcls.
  unfold retry. change (stop_max_attempt openai_retry - 1)%nat with 7%nat.
  replace 7%nat with (j + (7 - j))%nat at 1 by lia.
  now apply retrying_skip.
Qed.

(** Subscripting raises nothing the policy retries on. *)
Lemma getitem_key_raises v k e :
  getitem_key v k = Raise e -> openai_retry_if_union e = false.
Proof.
  destruct v; simpl; try (intros H; injection H as <-; reflexivity).
  destruct (lookup_key k entries); intros H; [discriminate |].
  injection H as <-. reflexivity.
Qed.

Lemma getitem_int_raises v i e :
  getitem_int v i = Raise e -> openai_retry_if_union e = false.
Proof.
  destruct v; simpl; try (intros H; injection H as <-; reflexivity).
  - destruct (norm_index _ i); [destruct (nth_error _ _) |];
      intros H; try discriminate; injection H as <-; reflexivity.
  - destruct (norm_index _ i); [destruct (nth_error _ _) |];
      intros H; try discriminate; injection H as <-; reflexivity.
Qed.

Lemma response_content_raises c v e :
  response_content c v = Raise e -> openai_retry_if_union e = false.
Proof.
  unfold response_content, text_content, chat_content, and_then.
  destruct (getitem_key v "choices") as [choices |] eqn:E1;
    [| destruct c; intros H; injection H as <-; eapply getitem_key_raises; eassumption].
  destruct (getitem_int choices 0) as [choice |] eqn:E2;
    [| destruct c; intros H; injection H as <-; eapply getitem_int_raises; eassumption].
  destruct c.
  - destruct (getitem_key choice "message") as [message |] eqn:E3;
      [apply getitem_key_raises
      | intros H; injection H as <-; eapply getitem_key_raises; eassumption].
  - destruct (getitem_key choice "message") as [message |] eqn:E3;
      [apply getitem_key_raises
      | intros H; injection H as <-; eapply getitem_key_raises; eassumption].
  - apply getitem_key_raises.
Qed.

Section Outcome.

Variables (prompt system_prompt : string) (examples : list (string * string))
  (max_tokens' : Z) (temperature' : float) (w : World) (j : nat).

#[local] Abbreviation req :=
  (request_of (self w) prompt system_prompt examples max_tokens' temperature').

Hypothesis Hcls : cls (self w) <> CompletionsRepoBase.
Hypothesis Hj : (j <= 7)%nat.
Hypothesis Hrun : retryable_run upstream req (List.length (sent w)) j.

(** An error outside the policy comes out at once. *)
Lemma _complete_raises e :
  upstream (List.length (sent w) + j)%nat req = Raises e ->
  openai_retry_if_union e = false ->
  _complete upstream prompt system_prompt examples max_tokens' temperature' w
  = (Raise e, add_sent req (after_failures req 1 j w)).
Proof.
  intros Hup He. rewrite (_complete_after _ _ _ _ _ w j Hcls Hj Hrun).
  assert (Hbody :
    body_of (cls (self w)) upstream prompt system_prompt examples max_tokens'
      temperature' (after_failures req 1 j w)
    = (Raise e, add_sent req (after_failures req 1 j w))).
  { apply (body_of_raises _ _ _ _ _ _ (after_failures req 1 j w) e);
      [reflexivity |].
    rewrite after_failures_calls. exact Hup. }
  rewrite retrying_done; [exact Hbody |].
  rewrite Hbody. exact He.
Qed.

(** A response ends the loop: it is mapped to its text, or to the empty
    string. *)
Lemma _complete_returns v :
  upstream (List.length (sent w) + j)%nat req = Returns v ->
  fst (_complete upstream prompt system_prompt examples max_tokens' temperature' w)
  = if invalid_response v then Ok (VStr "") else response_content (cls (self w)) v.
Proof.
  intros Hup. rewrite (_complete_after _ _ _ _ _ w j Hcls Hj Hrun).
  assert (Hbody :
    fst (body_of (cls (self w)) upstream prompt system_prompt examples max_tokens'
           temperature' (after_failures req 1 j w))
    = if invalid_response v then Ok (VStr "") else response_content (cls (self w)) v).
  { apply (body_of_returns _ _ _ _ _ _ (after_failures req 1 j w) v);
      [reflexivity |].
    rewrite after_failures_calls. exact Hup. }
  rewrite retrying_done; [exact Hbody |].
  rewrite Hbody. destruct (invalid_response v); [exact I |].
  destruct (response_content (cls (self w)) v) as [a | e] eqn:E; [exact I |].
  eapply response_content_raises; eassumption.
Qed.

End Outcome.

(** The eighth retryable failure in a row ends the loop with tenacity's
    [RetryError]. *)
Lemma _complete_exhausted prompt system_prompt examples max_tokens' temperature'
    (w : World) e :
  let req := request_of (self w) prompt system_prompt examples max_tokens'
               temperature' in
  cls (self w) <> CompletionsRepoBase ->
  retryable_run upstream req (List.length (sent w)) 7 ->
  upstream (List.length (sent w) + 7)%nat req = Raises e ->
  openai_retry_if_union e = true ->
  _complete upstream prompt system_prompt examples max_tokens' temperature' w
  = (Raise (RetryError e), add_sent req (after_failures req 1 7 w)).
Proof.
  intros req Hcls Hrun Hup He.
  rewrite (_complete_after _ _ _ _ _ w 7 Hcls (le_n 7) Hrun).
  change (7 - 7)%nat with 0%nat.
  apply (retrying_exhausted openai_retry _ _ _ _ e); [| exact He].
  apply (body_of_raises _ _ _ _ _ _ (after_failures req 1 7 w) e); [reflexivity |].
  rewrite after_failures_calls. exact Hup.
Qed.

End Runs.

(** ** The template method around a run *)

Section Complete.

Context {float : Type} {token : Type}.
Variable upstream : nat -> @Request float -> Outcome.

#[local] Abbreviation World := (@World float token).

Lemma removelast_shorter {A : Type} (l : list A) :
  List.length (removelast l) = Nat.pred (List.length l).
Proof.
  induction l as [| x l IH]; [reflexivity |].
  destruct l as [| y l]; [reflexivity |].
  change (removelast (x :: y :: l)) with (x :: removelast (y :: l)).
  cbn [List.length Nat.pred] in *. now rewrite IH.
Qed.

(** The loop never raises. *)
Lemma unwind_sections_ok (fuel : nat) (w : World) :
  fst (unwind_sections fuel w) = Ok tt.
Proof.
  revert w. induction fuel as [| fuel IH]; intros w; [reflexivity |].
  simpl. unfold bind, get_self. simpl.
  destruct (1 <? _); [| reflexivity].
  apply IH.
Qed.

(** With the depth on entry as fuel, the loop ends with the stack cut
    down to its root: it stops because its condition fails. *)
Lemma unwind_sections_root (fuel : nat) (w : World) :
  (List.length (sections_stack (publish_service (self w))) <= fuel)%nat ->
  publish_service (self (snd (unwind_sections fuel w)))
  = unwound (publish_service (self w)).
Proof.
  revert w. induction fuel as [| fuel IH]; intros w Hfuel.
  - simpl. destruct (publish_service (self w)) as [stack ups]. simpl in *.
    destruct stack; [reflexivity | simpl in Hfuel; lia].
  - simpl. unfold bind, get_self. simpl.
    destruct (1 <? _) eqn:E.
    + rewrite IH.
      * simpl. destruct (publish_service (self w)) as [stack ups]. simpl in *.
        destruct stack as [| x [| y l]]; try discriminate E. reflexivity.
      * simpl. rewrite removelast_shorter. lia.
    + simpl. destruct (publish_service (self w)) as [stack ups]. simpl in *.
      destruct stack as [| x [| y l]]; try reflexivity.
      apply Z.ltb_ge in E. simpl in E. lia.
Qed.

(** [complete] is the decorated method between two log lines, with the
    [except] clause on its errors. *)
Lemma complete_eq prompt system_prompt examples temperature' (w : World) :
  complete upstream prompt system_prompt examples temperature' w
  = match _complete upstream prompt
            (supplied system_prompt default_system_prompt)
            (supplied examples [])
            (budget (self w) prompt)
            (supplied temperature' (temperature (self w)))
            (snd (log_event Info "Running completion" w)) with
    | (Ok result, w1) => (Ok result, snd (log_event Info "Completed" w1))
    | (Raise e, w1) =>
        match on_invalid_request e w1 with
        | (Ok result, w2) => (Ok result, snd (log_event Info "Completed" w2))
        | (Raise e', w2) => (Raise e', w2)
        end
    end.
Proof.
  unfold complete, bind, try_except, get_self, supplied. simpl.
  destruct (_complete _ _ _ _ _ _ _) as [[result | e] w1]; [reflexivity |].
  destruct (on_invalid_request e w1) as [[result | e'] w2]; reflexivity.
Qed.

(** The [except] clause re-raises what it caught, and writes to the
    publisher exactly when the marker is in the message. *)
Lemma on_invalid_request_run msg (w : World) :
  fst (on_invalid_request (InvalidRequestError msg) w)
  = Raise (InvalidRequestError msg)
  /\ publish_service (self (snd (on_invalid_request (InvalidRequestError msg) w)))
     = if contains gpt4_marker msg
       then publish_update_of gpt4_warning (unwound (publish_service (self w)))
       else publish_service (self w).
Proof.
  unfold on_invalid_request.
  destruct (contains gpt4_marker msg); simpl; [| split; reflexivity].
  unfold bind, get_self. simpl.
  pose proof (unwind_sections_ok
                (List.length (sections_stack (publish_service (self w)))) w) as Hok.
  pose proof (unwind_sections_root
                (List.length (sections_stack (publish_service (self w)))) w
                (le_n _)) as Hroot.
  destruct (unwind_sections _ w) as [[[] | e] w1]; simpl in *; [| discriminate Hok].
  split; [reflexivity |]. now rewrite Hroot.
Qed.

(** Any other error passes the [except] clause untouched. *)
Lemma on_invalid_request_other e (w : World) :
  (forall msg, e <> InvalidRequestError msg) ->
  on_invalid_request e w = (Raise e, w).
Proof.
  intros H. destruct e; try reflexivity. now destruct (H msg).
Qed.

Section Outcome.

Variables (prompt : string) (system_prompt : option string)
  (examples : option (list (string * string))) (temperature' : option float)
  (w : World) (j : nat).

#[local] Abbreviation req' :=
  (submission w prompt system_prompt examples temperature').

Hypothesis Hcls : cls (self w) <> CompletionsRepoBase.
Hypothesis Hj : (j <= 7)%nat.
Hypothesis Hrun : retryable_run upstream req' (List.length (sent w)) j.

Lemma complete_invalid_request msg :
  upstream (List.length (sent w) + j)%nat req' = Raises (InvalidRequestError msg) ->
  fst (complete upstream prompt system_prompt examples temperature' w)
  = Raise (InvalidRequestError msg)
  /\ publish_service
       (self (snd (complete upstream prompt system_prompt examples temperature' w)))
     = if contains gpt4_marker msg
       then publish_update_of gpt4_warning (unwound (publish_service (self w)))
       else publish_service (self w).
Proof.
  intros Hup. rewrite complete_eq.
  rewrite (_complete_raises upstream _ _ _ _ _
             (snd (log_event Info "Running completion" w)) j Hcls Hj Hrun
             (InvalidRequestError msg) Hup eq_refl).
  match goal with
  | |- context [on_invalid_request _ ?w1] =>
      destruct (on_invalid_request_run msg w1) as [Hres Hpub];
      destruct (on_invalid_request (InvalidRequestError msg) w1) as [[a | e'] w2]
  end; simpl in *; [discriminate Hres |].
  split; [exact Hres | exact Hpub].
Qed.

Lemma complete_returns v result :
  upstream (List.length (sent w) + j)%nat req' = Returns v ->
  (if invalid_response v then Ok (VStr "") else response_content (cls (self w)) v)
  = Ok result ->
  fst (complete upstream prompt system_prompt examples temperature' w) = Ok result.
Proof.
  intros Hup Hres. rewrite complete_eq.
  pose proof (_complete_returns upstream _ _ _ _ _
                (snd (log_event Info "Running completion" w)) j Hcls Hj Hrun
                v Hup) as H.
  simpl self in H. rewrite Hres in H.
  destruct (_complete _ _ _ _ _ _ _) as [[a | e] w1]; simpl in H;
    [| discriminate H].
  injection H as ->. reflexivity.
Qed.

End Outcome.

Lemma complete_exhausted prompt system_prompt examples temperature' (w : World) e :
  cls (self w) <> CompletionsRepoBase ->
  retryable_run upstream (submission w prompt system_prompt examples temperature')
    (List.length (sent w)) 7 ->
  upstream (List.length (sent w) + 7)%nat
    (submission w prompt system_prompt examples temperature') = Raises e ->
  openai_retry_if_union e = true ->
  fst (complete upstream prompt system_prompt examples temperature' w)
  = Raise (RetryError e).
Proof.
  intros Hcls Hrun Hup He. rewrite complete_eq.
  rewrite (_complete_exhausted upstream _ _ _ _ _
             (snd (log_event Info "Running completion" w)) e Hcls Hrun Hup He).
  reflexivity.
Qed.

End Complete.

(** * The claims *)

(** ** The two formatters' requests *)

Lemma append_assoc (a b c : string) : ((a ++ b) ++ c = a ++ (b ++ c))%string.
Proof. induction a as [| x a IH]; simpl; [reflexivity | now rewrite IH]. Qed.

Lemma append_nil_r (a : string) : (a ++ "" = a)%string.
Proof. induction a as [| x a IH]; simpl; [reflexivity | now rewrite IH]. Qed.

Lemma text_prefix_fold (examples : list (string * string)) (start : string) :
  fold_left
    (fun prompt example =>
       (prompt ++ (nl ++ nl ++ fst example ++ nl ++ snd example))%string)
    examples start
  = (start ++ example_lines examples)%string.
Proof.
  revert start. induction examples as [| [input output] rest IH]; intros start.
  - simpl. now rewrite append_nil_r.
  - simpl fold_left. rewrite IH. simpl fst. simpl snd.
    cbn [example_lines]. now rewrite append_assoc.
Qed.

Lemma text_prompt_doubled (prompt system_prompt : string)
    (examples : list (string * string)) :
  text_prompt prompt system_prompt examples
  = (computed_prompt system_prompt examples
     ++ nl ++ nl ++ computed_prompt system_prompt examples)%string.
Proof. unfold text_prompt, computed_prompt. now rewrite text_prefix_fold. Qed.

Lemma chat_turns_fold (examples : list (string * string)) (start : list Message) :
  fold_left
    (fun messages example =>
       ((messages ++ [mkMessage "user" (fst example)])
          ++ [mkMessage "assistant" (snd example)])%list)
    examples start
  = (start ++ example_turns examples)%list.
Proof.
  revert start. induction examples as [| example rest IH]; intros start.
  - simpl. now rewrite app_nil_r.
  - simpl fold_left. rewrite IH. unfold example_turns. simpl flat_map.
    now rewrite <- !app_assoc.
Qed.

Lemma chat_messages_expected (prompt system_prompt : string)
    (examples : list (string * string)) :
  chat_messages prompt system_prompt examples
  = expected_messages system_prompt examples prompt.
Proof.
  unfold chat_messages, expected_messages. now rewrite chat_turns_fold.
Qed.

Lemma example_turns_length (examples : list (string * string)) :
  List.length (example_turns examples) = (2 * List.length examples)%nat.
Proof.
  induction examples as [| example rest IH]; [reflexivity |].
  unfold example_turns in *. simpl. rewrite IH. lia.
Qed.

(** C1.  In the raw-text formatter's [_complete], the text submitted to
    the text-completion endpoint is two copies of the computed prompt
    (the system prompt followed by the examples' lines, in order) joined
    by two newlines, at every attempt; the text is the same whatever
    prompt the caller passed. *)
Theorem text_request_doubles_computed_prompt
    {float token : Type} (upstream : nat -> @Request float -> Outcome)
    (prompt system_prompt : string) (examples : list (string * string))
    (max_tokens' : Z) (temperature' : float) (w : @World float token) :
  cls (self w) = OpenAICompletionsRepo ->
  (exists k, (1 <= k <= 8)%nat
     /\ sent (snd (_complete upstream prompt system_prompt examples max_tokens'
                     temperature' w))
        = (sent w
           ++ repeat
                (Completion_create (model (self w))
                   (computed_prompt system_prompt examples
                    ++ nl ++ nl ++ computed_prompt system_prompt examples)%string
                   temperature' max_tokens') k)%list)
  /\ forall prompt',
       text_prompt prompt' system_prompt examples
       = text_prompt prompt system_prompt examples.
Proof.
  intros Hcls. split.
  - destruct (_complete_sent upstream prompt system_prompt examples max_tokens'
                temperature' w) as [k [Hk Hsent]]; [congruence |].
    exists k. split; [exact Hk |].
    rewrite Hsent. unfold request_of. rewrite Hcls.
    now rewrite text_prompt_doubled.
  - intros prompt'. now rewrite !text_prompt_doubled.
Qed.

Lemma text_request_doubles_computed_prompt_witness :
  cls (self (sample_world OpenAICompletionsRepo 8192)) = OpenAICompletionsRepo
  /\ ((exists k, (1 <= k <= 8)%nat
        /\ sent (snd (_complete (scripted [] (Returns (text_response "4")))
                        "2 + 2 =" "Add." [("1 + 1 =", "2")] 100 8
                        (sample_world OpenAICompletionsRepo 8192)))
           = ([]
              ++ repeat
                   (Completion_create "gpt-4"
                      (computed_prompt "Add." [("1 + 1 =", "2")]
                       ++ nl ++ nl ++ computed_prompt "Add." [("1 + 1 =", "2")])%string
                      8 100) k)%list)
      /\ forall prompt',
           text_prompt prompt' "Add." [("1 + 1 =", "2")]
           = text_prompt "2 + 2 =" "Add." [("1 + 1 =", "2")]).
Proof.
  split; [reflexivity |].
  apply (text_request_doubles_computed_prompt
           (scripted [] (Returns (text_response "4")))
           "2 + 2 =" "Add." [("1 + 1 =", "2")] 100 8
           (sample_world OpenAICompletionsRepo 8192)).
  reflexivity.
Defined.

(** C5.  In the chat-style formatter, for a system prompt [s], examples
    [(a1,b1) ... (an,bn)] and a prompt [p], the message list submitted to
    the chat endpoint is [system:s, user:a1, assistant:b1, ..., user:an,
    assistant:bn, user:p], of length [2n + 2], at every attempt. *)
Theorem chat_request_messages
    {float token : Type} (upstream : nat -> @Request float -> Outcome)
    (prompt system_prompt : string) (examples : list (string * string))
    (max_tokens' : Z) (temperature' : float) (w : @World float token) :
  cls (self w) = OpenAIChatCompletionsRepo ->
  (exists k, (1 <= k <= 8)%nat
     /\ sent (snd (_complete upstream prompt system_prompt examples max_tokens'
                     temperature' w))
        = (sent w
           ++ repeat
                (ChatCompletion_create (model (self w))
                   (expected_messages system_prompt examples prompt)
                   temperature' max_tokens') k)%list)
  /\ List.length (expected_messages system_prompt examples prompt)
     = (2 * List.length examples + 2)%nat.
Proof.
  intros Hcls. split.
  - destruct (_complete_sent upstream prompt system_prompt examples max_tokens'
                temperature' w) as [k [Hk Hsent]]; [congruence |].
    exists k. split; [exact Hk |].
    rewrite Hsent. unfold request_of. rewrite Hcls.
    now rewrite chat_messages_expected.
  - unfold expected_messages. simpl. rewrite length_app, example_turns_length.
    simpl. lia.
Qed.

Lemma chat_request_messages_witness :
  cls (self (sample_world OpenAIChatCompletionsRepo 8192)) = OpenAIChatCompletionsRepo
  /\ ((exists k, (1 <= k <= 8)%nat
        /\ sent (snd (_complete (scripted [] (Returns (chat_response "4")))
                        "p" "s" [("a1", "b1"); ("a2", "b2")] 100 8
                        (sample_world OpenAIChatCompletionsRepo 8192)))
           = ([]
              ++ repeat
                   (ChatCompletion_create "gpt-4"
                      [mkMessage "system" "s";
                       mkMessage "user" "a1"; mkMessage "assistant" "b1";
                       mkMessage "user" "a2"; mkMessage "assistant" "b2";
                       mkMessage "user" "p"]
                      8 100) k)%list)
      /\ List.length (expected_messages "s" [("a1", "b1"); ("a2", "b2")] "p")
         = (2 * 2 + 2)%nat).
Proof.
  split; [reflexivity |].
  apply (chat_request_messages
           (scripted [] (Returns (chat_response "4")))
           "p" "s" [("a1", "b1"); ("a2", "b2")] 100 8
           (sample_world OpenAIChatCompletionsRepo 8192)).
  reflexivity.
Defined.

(** ** The token budget *)

(** C4.  For a prompt whose token length is less than [context_limit],
    every request [complete] has its formatter submit carries
    [max_tokens = min(self.max_tokens, self.context_limit - length)]. *)
Theorem budget_below_context_limit
    {float token : Type} (upstream : nat -> @Request float -> Outcome)
    (prompt : string) (system_prompt : option string)
    (examples : option (list (string * string))) (temperature' : option float)
    (w : @World float token) :
  cls (self w) <> CompletionsRepoBase ->
  Z.of_nat (List.length (tokenizer (self w) prompt)) < context_limit (self w) ->
  exists k, (1 <= k <= 8)%nat
    /\ sent (snd (complete upstream prompt system_prompt examples temperature' w))
       = (sent w
          ++ repeat (submission w prompt system_prompt examples temperature') k)%list
    /\ request_max_tokens (submission w prompt system_prompt examples temperature')
       = Z.min (max_tokens (self w))
           (context_limit (self w)
            - Z.of_nat (List.length (tokenizer (self w) prompt))).
Proof.
  intros Hcls _.
  destruct (complete_sent upstream prompt system_prompt examples temperature' w Hcls)
    as [k [Hk Hsent]].
  exists k. split; [exact Hk |]. split; [exact Hsent |].
  unfold submission, request_of. destruct (cls (self w)); reflexivity.
Qed.

Lemma budget_below_context_limit_witness :
  cls (self (sample_world OpenAIChatCompletionsRepo 1500)) <> CompletionsRepoBase
  /\ Z.of_nat (List.length
                (tokenizer (self (sample_world OpenAIChatCompletionsRepo 1500))
                   "hello"))
     < context_limit (self (sample_world OpenAIChatCompletionsRepo 1500))
  /\ exists k, (1 <= k <= 8)%nat
       /\ sent (snd (complete (scripted [] (Returns (chat_response "hi")))
                       "hello" None None None
                       (sample_world OpenAIChatCompletionsRepo 1500)))
          = ([]
             ++ repeat
                  (submission (sample_world OpenAIChatCompletionsRepo 1500)
                     "hello" None None None) k)%list
       /\ request_max_tokens
            (submission (sample_world OpenAIChatCompletionsRepo 1500)
               "hello" None None None)
          = Z.min 2000 (1500 - 5).
Proof.
  split; [discriminate |]. split; [reflexivity |].
  apply (budget_below_context_limit
           (scripted [] (Returns (chat_response "hi")))
           "hello" None None None (sample_world OpenAIChatCompletionsRepo 1500)).
  - discriminate.
  - reflexivity.
Defined.

(** C8.  For a prompt whose token length exceeds [context_limit], the
    [max_tokens] that [complete] computes is negative, and every request
    the formatter submits carries it as it is: nothing clamps it. *)
Theorem budget_above_context_limit
    {float token : Type} (upstream : nat -> @Request float -> Outcome)
    (prompt : string) (system_prompt : option string)
    (examples : option (list (string * string))) (temperature' : option float)
    (w : @World float token) :
  cls (self w) <> CompletionsRepoBase ->
  context_limit (self w) < Z.of_nat (List.length (tokenizer (self w) prompt)) ->
  Z.min (max_tokens (self w))
    (context_limit (self w) - Z.of_nat (List.length (tokenizer (self w) prompt)))
  < 0
  /\ exists k, (1 <= k <= 8)%nat
       /\ sent (snd (complete upstream prompt system_prompt examples temperature' w))
          = (sent w
             ++ repeat (submission w prompt system_prompt examples temperature') k)%list
       /\ request_max_tokens (submission w prompt system_prompt examples temperature')
          = Z.min (max_tokens (self w))
              (context_limit (self w)
               - Z.of_nat (List.length (tokenizer (self w) prompt))).
Proof.
  intros Hcls Hlong. split; [lia |].
  destruct (complete_sent upstream prompt system_prompt examples temperature' w Hcls)
    as [k [Hk Hsent]].
  exists k. split; [exact Hk |]. split; [exact Hsent |].
  unfold submission, request_of. destruct (cls (self w)); reflexivity.
Qed.

Lemma budget_above_context_limit_witness :
  cls (self (sample_world OpenAICompletionsRepo 3)) <> CompletionsRepoBase
  /\ context_limit (self (sample_world OpenAICompletionsRepo 3))
     < Z.of_nat (List.length
                   (tokenizer (self (sample_world OpenAICompletionsRepo 3)) "hello"))
  /\ Z.min 2000 (3 - 5) < 0
  /\ exists k, (1 <= k <= 8)%nat
       /\ sent (snd (complete (scripted [] (Returns (text_response "hi")))
                       "hello" None None None
                       (sample_world OpenAICompletionsRepo 3)))
          = ([]
             ++ repeat
                  (submission (sample_world OpenAICompletionsRepo 3)
                     "hello" None None None) k)%list
       /\ request_max_tokens
            (submission (sample_world OpenAICompletionsRepo 3) "hello" None None None)
          = -2.
Proof.
  split; [discriminate |]. split; [reflexivity |].
  apply (budget_above_context_limit
           (scripted [] (Returns (text_response "hi")))
           "hello" None None None (sample_world OpenAICompletionsRepo 3)).
  - discriminate.
  - reflexivity.
Defined.

(** ** The configuration *)

(** C10.  Whatever a call of [complete] does (return, retry or raise),
    on an instance of any class, the instance's model name, [max_tokens],
    [min_tokens], [context_limit] and [temperature] are afterwards what
    they were before. *)
Theorem complete_keeps_configuration
    {float token : Type} (upstream : nat -> @Request float -> Outcome)
    (prompt : string) (system_prompt : option string)
    (examples : option (list (string * string))) (temperature' : option float)
    (w : @World float token) :
  same_config (self w)
    (self (snd (complete upstream prompt system_prompt examples temperature' w))).
Proof.
  pose proof (complete_configuration upstream prompt system_prompt examples
                temperature' w) as H.
  unfold configuration in H. unfold same_config.
  injection H as _ -> -> -> -> ->. repeat split.
Qed.

(** ** The factory *)

Lemma undeclared (name : string) (c : RepoClass) :
  ~ In name (models c) -> existsb (String.eqb name) (models c) = false.
Proof.
  intros Hnot. destruct (existsb (String.eqb name) (models c)) eqn:E; [| reflexivity].
  apply existsb_exists in E. destruct E as [m [Hin Heq]].
  apply String.eqb_eq in Heq. subst m. contradiction.
Qed.

(** C7.  For a model name that some registered variant declares, the
    factory returns an instance of such a variant, built from the
    arguments supplied, and no other variant declares the name; for
    ["gpt-4"] the instance is of the chat-style formatter; for a name
    that no variant declares the factory raises [ValueError] with the
    name in its message.  The factory is a pure function of its
    arguments: it submits nothing and retries nothing. *)
Theorem get_completions_repo_selects
    {float token : Type} (get_tokenizer : Z -> string -> list token)
    (publish_service' : PublishService) (model' : string)
    (max_tokens' min_tokens' context_limit' : Z) (temperature' : float) :
  ((exists c, In c __subclasses__ /\ In model' (models c)) ->
   exists c,
     In c __subclasses__ /\ In model' (models c)
     /\ (forall c', In c' __subclasses__ -> In model' (models c') -> c' = c)
     /\ get_completions_repo get_tokenizer publish_service' model' max_tokens'
          min_tokens' context_limit' temperature'
        = Ok {| cls := c;
                publish_service := publish_service';
                model := model';
                max_tokens := max_tokens';
                min_tokens := min_tokens';
                context_limit := context_limit';
                temperature := temperature';
                tokenizer := get_tokenizer max_tokens' |})
  /\ ((forall c, In c __subclasses__ -> ~ In model' (models c)) ->
      get_completions_repo get_tokenizer publish_service' model' max_tokens'
        min_tokens' context_limit' temperature'
      = Raise (ValueError ("Model " ++ model' ++ " not implemented")))
  /\ (model' = "gpt-4" ->
      exists r,
        get_completions_repo get_tokenizer publish_service' model' max_tokens'
          min_tokens' context_limit' temperature' = Ok r
        /\ cls r = OpenAIChatCompletionsRepo).
Proof.
  split; [| split].
  - intros [c [Hc Hm]]. exists c.
    split; [exact Hc |]. split; [exact Hm |].
    simpl in Hc. destruct Hc as [<- | [<- | []]]; simpl in Hm.
    + destruct Hm as [<- | [<- | []]];
        (split; [| reflexivity]);
        intros c' Hc' Hm'; simpl in Hc'; destruct Hc' as [<- | [<- | []]];
        try reflexivity; simpl in Hm'; destruct Hm' as [Hm' | []]; discriminate Hm'.
    + destruct Hm as [<- | []].
      split; [| reflexivity].
      intros c' Hc' Hm'. simpl in Hc'. destruct Hc' as [<- | [<- | []]];
        try reflexivity.
      simpl in Hm'. destruct Hm' as [Hm' | [Hm' | []]]; discriminate Hm'.
  - intros Hnone. unfold get_completions_repo.
    cbn [first_implementation __subclasses__].
    rewrite !undeclared; [reflexivity | |]; apply Hnone; simpl; auto.
  - intros ->. eexists. split; reflexivity.
Qed.

Lemma get_completions_repo_selects_witness :
  (forall c, In c __subclasses__ -> ~ In "unknown-model" (models c))
  /\ get_completions_repo char_tokenizer sample_publisher "unknown-model"
       2000 1000 8192 8%Z
     = Raise (ValueError "Model unknown-model not implemented")
  /\ exists r,
       get_completions_repo char_tokenizer sample_publisher "gpt-4" 2000 1000 8192 8%Z
       = Ok r
       /\ cls r = OpenAIChatCompletionsRepo.
Proof.
  assert (Hnone : forall c, In c __subclasses__ -> ~ In "unknown-model" (models c)).
  { intros c [<- | [<- | []]]; simpl; intros H;
      repeat (destruct H as [H | H]; [discriminate H |]); exact H. }
  split; [exact Hnone |]. split.
  - exact (proj1 (proj2 (get_completions_repo_selects char_tokenizer sample_publisher
                           "unknown-model" 2000 1000 8192 8%Z)) Hnone).
  - exact (proj2 (proj2 (get_completions_repo_selects char_tokenizer sample_publisher
                           "gpt-4" 2000 1000 8192 8%Z)) eq_refl).
Defined.

(** ** Errors of the upstream *)

(** C3, as the code has it.  When the submission raises (after any
    retried failures) an invalid-request error whose message contains
    the marker "`gpt-4` does not exist", whatever model the instance
    asked for, [complete] pops the publisher's section stack until its
    depth is at most 1 (exactly 1 whenever the stack held a section),
    publishes the warning exactly once, and raises the error it caught. *)
Theorem model_access_error_is_announced
    {float token : Type} (upstream : nat -> @Request float -> Outcome)
    (prompt : string) (system_prompt : option string)
    (examples : option (list (string * string))) (temperature' : option float)
    (w : @World float token) (j : nat) (msg : string) :
  cls (self w) <> CompletionsRepoBase ->
  (j <= 7)%nat ->
  retryable_run upstream (submission w prompt system_prompt examples temperature')
    (List.length (sent w)) j ->
  upstream (List.length (sent w) + j)%nat
    (submission w prompt system_prompt examples temperature')
  = Raises (InvalidRequestError msg) ->
  contains gpt4_marker msg = true ->
  fst (complete upstream prompt system_prompt examples temperature' w)
  = Raise (InvalidRequestError msg)
  /\ sections_stack
       (publish_service
          (self (snd (complete upstream prompt system_prompt examples temperature' w))))
     = firstn 1 (sections_stack (publish_service (self w)))
  /\ List.length
       (sections_stack
          (publish_service
             (self (snd (complete upstream prompt system_prompt examples
                           temperature' w)))))
     = Nat.min 1 (List.length (sections_stack (publish_service (self w))))
  /\ (sections_stack (publish_service (self w)) <> [] ->
      List.length
        (sections_stack
           (publish_service
              (self (snd (complete upstream prompt system_prompt examples
                            temperature' w)))))
      = 1%nat)
  /\ updates
       (publish_service
          (self (snd (complete upstream prompt system_prompt examples temperature' w))))
     = (updates (publish_service (self w)) ++ [gpt4_warning])%list.
Proof.
  intros Hcls Hj Hrun Hup Hmarker.
  destruct (complete_invalid_request upstream prompt system_prompt examples
              temperature' w j Hcls Hj Hrun msg Hup) as [Hres Hpub].
  rewrite Hmarker in Hpub. rewrite Hpub.
  cbn [publish_update_of unwound sections_stack updates].
  split; [exact Hres |]. split; [reflexivity |].
  split; [apply length_firstn |].
  split; [| reflexivity].
  intros Hroot.
  destruct (sections_stack (publish_service (self w))); [congruence | reflexivity].
Qed.

Lemma model_access_error_is_announced_witness :
  fst (complete upstream_no_access_on_retry "hello" None None None
         (sample_world OpenAIChatCompletionsRepo 8192))
  = Raise (InvalidRequestError no_access_message)
  /\ sections_stack
       (publish_service
          (self (snd (complete upstream_no_access_on_retry "hello" None None None
                        (sample_world OpenAIChatCompletionsRepo 8192)))))
     = firstn 1 ["root"; "plan"; "codegen"]
  /\ List.length
       (sections_stack
          (publish_service
             (self (snd (complete upstream_no_access_on_retry "hello" None None None
                           (sample_world OpenAIChatCompletionsRepo 8192))))))
     = Nat.min 1 3
  /\ (["root"; "plan"; "codegen"] <> [] ->
      List.length
        (sections_stack
           (publish_service
              (self (snd (complete upstream_no_access_on_retry "hello" None None None
                            (sample_world OpenAIChatCompletionsRepo 8192))))))
      = 1%nat)
  /\ updates
       (publish_service
          (self (snd (complete upstream_no_access_on_retry "hello" None None None
                        (sample_world OpenAIChatCompletionsRepo 8192)))))
     = (["started"] ++ [gpt4_warning])%list.
Proof.
  apply (model_access_error_is_announced upstream_no_access_on_retry
           "hello" None None None (sample_world OpenAIChatCompletionsRepo 8192) 1
           no_access_message).
  - discriminate.
  - lia.
  - intros i Hi. destruct i as [| i]; [| lia].
    exists (RateLimitError "slow down"). split; reflexivity.
  - reflexivity.
  - reflexivity.
Defined.

(** C3 as stated fails twice.  An instance that asked for gpt-3.5-turbo
    and is refused that model gets its error back with nothing popped
    and nothing published: the three sections and the one update are
    still there.  And a stack with no section in it is not brought to
    depth 1: it stays empty while the warning is published. *)
Lemma other_model_refusal_is_not_announced :
  (model (self turbo_world) = "gpt-3.5-turbo"
   /\ fst (complete upstream_no_access_turbo "hello" None None None turbo_world)
      = Raise (InvalidRequestError "The model: `gpt-3.5-turbo` does not exist")
   /\ publish_service
        (self (snd (complete upstream_no_access_turbo "hello" None None None
                      turbo_world)))
      = {| sections_stack := ["root"; "plan"; "codegen"]; updates := ["started"] |}
   /\ List.length
        (sections_stack
           (publish_service
              (self (snd (complete upstream_no_access_turbo "hello" None None None
                            turbo_world)))))
      <> 1%nat)
  /\ (fst (complete upstream_no_access "hello" None None None rootless_world)
      = Raise (InvalidRequestError no_access_message)
      /\ publish_service
           (self (snd (complete upstream_no_access "hello" None None None
                         rootless_world)))
         = {| sections_stack := []; updates := [gpt4_warning] |}
      /\ List.length
           (sections_stack
              (publish_service
                 (self (snd (complete upstream_no_access "hello" None None None
                               rootless_world)))))
         <> 1%nat).
Proof.
  split.
  - split; [reflexivity |]. split; [reflexivity |]. split; [reflexivity |].
    discriminate.
  - split; [reflexivity |]. split; [reflexivity |]. discriminate.
Qed.

(** C9.  The special case is decided by the marker being a substring of
    the error's message and by nothing else, whatever model the instance
    is configured for: with the marker the stack is unwound and the
    warning published, without it the publisher is left as it was; the
    error is raised again in both cases. *)
Theorem invalid_request_is_judged_by_marker
    {float token : Type} (upstream : nat -> @Request float -> Outcome)
    (prompt : string) (system_prompt : option string)
    (examples : option (list (string * string))) (temperature' : option float)
    (w : @World float token) (j : nat) (msg : string) :
  cls (self w) <> CompletionsRepoBase ->
  (j <= 7)%nat ->
  retryable_run upstream (submission w prompt system_prompt examples temperature')
    (List.length (sent w)) j ->
  upstream (List.length (sent w) + j)%nat
    (submission w prompt system_prompt examples temperature')
  = Raises (InvalidRequestError msg) ->
  fst (complete upstream prompt system_prompt examples temperature' w)
  = Raise (InvalidRequestError msg)
  /\ (contains gpt4_marker msg = false ->
      publish_service
        (self (snd (complete upstream prompt system_prompt examples temperature' w)))
      = publish_service (self w))
  /\ (contains gpt4_marker msg = true ->
      publish_service
        (self (snd (complete upstream prompt system_prompt examples temperature' w)))
      = publish_update_of gpt4_warning (unwound (publish_service (self w)))).
Proof.
  intros Hcls Hj Hrun Hup.
  destruct (complete_invalid_request upstream prompt system_prompt examples
              temperature' w j Hcls Hj Hrun msg Hup) as [Hres Hpub].
  split; [exact Hres |].
  split; intros Hmarker; rewrite Hmarker in Hpub; exact Hpub.
Qed.

Lemma invalid_request_is_judged_by_marker_witness :
  model (self turbo_world) = "gpt-3.5-turbo"
  /\ (fst (complete upstream_no_access "hello" None None None turbo_world)
      = Raise (InvalidRequestError no_access_message)
      /\ publish_service
           (self (snd (complete upstream_no_access "hello" None None None turbo_world)))
         = {| sections_stack := ["root"]; updates := ["started"; gpt4_warning] |})
  /\ (fst (complete upstream_too_long "hello" None None None turbo_world)
      = Raise (InvalidRequestError "maximum context length exceeded")
      /\ publish_service
           (self (snd (complete upstream_too_long "hello" None None None turbo_world)))
         = sample_publisher).
Proof.
  split; [reflexivity |]. split.
  - destruct (invalid_request_is_judged_by_marker upstream_no_access
                "hello" None None None turbo_world 0 no_access_message)
      as [Hres [_ Hpub]].
    + discriminate.
    + lia.
    + intros i Hi. lia.
    + reflexivity.
    + split; [exact Hres |]. rewrite Hpub; reflexivity.
  - destruct (invalid_request_is_judged_by_marker upstream_too_long
                "hello" None None None turbo_world 0
                "maximum context length exceeded")
      as [Hres [Hpub _]].
    + discriminate.
    + lia.
    + intros i Hi. lia.
    + reflexivity.
    + split; [exact Hres |]. rewrite Hpub; reflexivity.
Defined.

(** ** Responses of the wrong shape *)

(** C2, as the code has it.  A response that is [None], or that is not a
    dict, makes either formatter's [_complete] return the empty string
    without raising (after any retried failures). *)
Theorem invalid_response_gives_empty_text
    {float token : Type} (upstream : nat -> @Request float -> Outcome)
    (prompt system_prompt : string) (examples : list (string * string))
    (max_tokens' : Z) (temperature' : float) (w : @World float token)
    (j : nat) (openai_response : value) :
  cls (self w) <> CompletionsRepoBase ->
  (j <= 7)%nat ->
  retryable_run upstream
    (request_of (self w) prompt system_prompt examples max_tokens' temperature')
    (List.length (sent w)) j ->
  upstream (List.length (sent w) + j)%nat
    (request_of (self w) prompt system_prompt examples max_tokens' temperature')
  = Returns openai_response ->
  openai_response = VNone \/ is_dict openai_response = false ->
  fst (_complete upstream prompt system_prompt examples max_tokens' temperature' w)
  = Ok (VStr "").
Proof.
  intros Hcls Hj Hrun Hup Hshape.
  rewrite (_complete_returns upstream _ _ _ _ _ w j Hcls Hj Hrun _ Hup).
  assert (Hinvalid : invalid_response openai_response = true).
  { unfold invalid_response. destruct Hshape as [-> | ->]; [reflexivity |].
    apply orb_true_r. }
  now rewrite Hinvalid.
Qed.

Lemma invalid_response_gives_empty_text_witness :
  fst (_complete (scripted [Raises (Timeout "timed out")] (Returns VNone))
         "p" "s" [] 100 8 (sample_world OpenAIChatCompletionsRepo 8192))
  = Ok (VStr "")
  /\ fst (_complete (scripted [] (Returns (VStr "<html>Bad gateway</html>")))
            "p" "s" [] 100 8 (sample_world OpenAICompletionsRepo 8192))
     = Ok (VStr "").
Proof.
  split.
  - apply (invalid_response_gives_empty_text
             (scripted [Raises (Timeout "timed out")] (Returns VNone))
             "p" "s" [] 100 8 (sample_world OpenAIChatCompletionsRepo 8192) 1 VNone).
    + discriminate.
    + lia.
    + intros i Hi. destruct i as [| i]; [| lia].
      exists (Timeout "timed out"). split; reflexivity.
    + reflexivity.
    + left. reflexivity.
  - apply (invalid_response_gives_empty_text
             (scripted [] (Returns (VStr "<html>Bad gateway</html>")))
             "p" "s" [] 100 8 (sample_world OpenAICompletionsRepo 8192) 0
             (VStr "<html>Bad gateway</html>")).
    + discriminate.
    + lia.
    + intros i Hi. lia.
    + reflexivity.
    + right. reflexivity.
Defined.

(** C2 as stated fails: a response that is a dict without the "choices"
    field makes either formatter's [_complete] raise [KeyError]. *)
Lemma response_without_choices_raises :
  fst (_complete (scripted [] (Returns (VDict [("error", VStr "overloaded")])))
         "p" "s" [] 100 8 (sample_world OpenAIChatCompletionsRepo 8192))
  = Raise (KeyError "choices")
  /\ fst (_complete (scripted [] (Returns (VDict [("error", VStr "overloaded")])))
            "p" "s" [] 100 8 (sample_world OpenAICompletionsRepo 8192))
     = Raise (KeyError "choices").
Proof. split; reflexivity. Qed.

(** ** The retry policy *)



(** * Further properties of the code *)

(** ** The whole trace of a call *)

Section CallTraces.

Context {float : Type} {token : Type}.
Variable upstream : nat -> @Request float -> Outcome.

#[local] Abbreviation World := (@World float token).

Lemma body_of_returns_world c prompt system_prompt examples max_tokens' temperature'
    (w : World) v :
  cls (self w) = c ->
  upstream (List.length (sent w))
    (request_of (self w) prompt system_prompt examples max_tokens' temperature')
  = Returns v ->
  body_of c upstream prompt system_prompt examples max_tokens' temperature' w
  = (response_text c v,
     add_log (response_log c v)
       (add_sent (request_of (self w) prompt system_prompt examples max_tokens'
                    temperature') w)).
Proof.
  unfold request_of, response_text, response_log. intros Hc. rewrite Hc.
  destruct c; simpl; intros Hup;
    unfold OpenAIChatCompletionsRepo_body, OpenAICompletionsRepo_body,
      bind, get_self, create; simpl; rewrite Hup; simpl;
    destruct (invalid_response v); simpl; unfold lift, add_log, add_sent; simpl;
    rewrite <- ?app_assoc; reflexivity.
Qed.

Lemma response_text_raises c v e :
  response_text c v = Raise e -> openai_retry_if_union e = false.
Proof.
  unfold response_text. destruct (invalid_response v); [discriminate |].
  apply response_content_raises.
Qed.

Lemma _complete_returns_world prompt system_prompt examples max_tokens' temperature'
    (w : World) (j : nat) v :
  cls (self w) <> CompletionsRepoBase ->
  (j <= 7)%nat ->
  retryable_run upstream
    (request_of (self w) prompt system_prompt examples max_tokens' temperature')
    (List.length (sent w)) j ->
  upstream (List.length (sent w) + j)%nat
    (request_of (self w) prompt system_prompt examples max_tokens' temperature')
  = Returns v ->
  _complete upstream prompt system_prompt examples max_tokens' temperature' w
  = (response_text (cls (self w)) v,
     add_log (response_log (cls (self w)) v)
       (add_sent
          (request_of (self w) prompt system_prompt examples max_tokens' temperature')
          (after_failures
             (request_of (self w) prompt system_prompt examples max_tokens'
                temperature') 1 j w))).
Proof.
  intros Hcls Hj Hrun Hup.
  rewrite (_complete_after upstream _ _ _ _ _ w j Hcls Hj Hrun).
  match goal with
  | |- retrying _ _ _ ?fn ?wj = _ =>
      assert (Hbody : fn wj
                      = (response_text (cls (self w)) v,
                         add_log (response_log (cls (self w)) v)
                           (add_sent
                              (request_of (self w) prompt system_prompt examples
                                 max_tokens' temperature') wj)));
      [apply (body_of_returns_world (cls (self w)) prompt system_prompt examples
                max_tokens' temperature' wj v);
         [reflexivity | rewrite after_failures_calls; exact Hup] |]
  end.
  rewrite retrying_done; [exact Hbody |].
  rewrite Hbody. simpl fst.
  destruct (response_text (cls (self w)) v) as [a | e] eqn:E; [exact I |].
  eapply response_text_raises; eassumption.
Qed.

(** What the examination of a response can raise. *)
Lemma getitem_key_raises_shape v k e :
  getitem_key v k = Raise e -> exists s, e = KeyError s \/ e = TypeError s.
Proof.
  destruct v; simpl; try (intros H; injection H as <-; eexists; right; reflexivity).
  destruct (lookup_key k entries); intros H; [discriminate |].
  injection H as <-. eexists; left; reflexivity.
Qed.

Lemma getitem_int_raises_shape v i e :
  getitem_int v i = Raise e ->
  exists s, e = KeyError s \/ e = IndexError s \/ e = TypeError s.
Proof.
  destruct v; simpl;
    try (intros H; injection H as <-; eexists; right; right; reflexivity).
  - destruct (norm_index _ i); [destruct (nth_error _ _) |];
      intros H; try discriminate; injection H as <-;
      eexists; right; left; reflexivity.
  - destruct (norm_index _ i); [destruct (nth_error _ _) |];
      intros H; try discriminate; injection H as <-;
      eexists; right; left; reflexivity.
  - intros H; injection H as <-. eexists; left; reflexivity.
Qed.

Lemma response_content_raises_shape c v e :
  response_content c v = Raise e ->
  exists s, e = KeyError s \/ e = IndexError s \/ e = TypeError s.
Proof.
  assert (Hkey : forall v k e, getitem_key v k = Raise e ->
                   exists s, e = KeyError s \/ e = IndexError s \/ e = TypeError s).
  { intros v0 k e0 H. destruct (getitem_key_raises_shape v0 k e0 H) as [s [-> | ->]];
      exists s; tauto. }
  unfold response_content, text_content, chat_content, and_then.
  destruct (getitem_key v "choices") as [choices |] eqn:E1;
    [| destruct c; intros H; injection H as <-; eapply Hkey; eassumption].
  destruct (getitem_int choices 0) as [choice |] eqn:E2;
    [| destruct c; intros H; injection H as <-;
       eapply getitem_int_raises_shape; eassumption].
  destruct c.
  - destruct (getitem_key choice "message") as [message |] eqn:E3;
      [apply Hkey | intros H; injection H as <-; eapply Hkey; eassumption].
  - destruct (getitem_key choice "message") as [message |] eqn:E3;
      [apply Hkey | intros H; injection H as <-; eapply Hkey; eassumption].
  - apply Hkey.
Qed.

Lemma sent_after_attempts (req : Request) (j : nat) (w : World) :
  sent (add_sent req (after_failures req 1 j w))
  = (sent w ++ repeat req (S j))%list.
Proof. simpl. rewrite <- app_assoc. f_equal. symmetry. apply repeat_cons. Qed.

Lemma wait_ceiling_power (attempt : nat) :
  (1 <= attempt <= 8)%nat ->
  wait_ceiling openai_retry attempt = 2 ^ (Z.of_nat attempt - 1).
Proof.
  intros H.
  do 9 (destruct attempt as [| attempt]; [try lia; reflexivity |]). lia.
Qed.

Lemma ceilings_are_powers (j : nat) :
  (j <= 7)%nat ->
  map (wait_ceiling openai_retry) (seq 1 j)
  = map (fun attempt => 2 ^ (Z.of_nat attempt - 1)) (seq 1 j).
Proof.
  intros Hj. apply map_ext_in. intros a Ha. apply in_seq in Ha.
  apply wait_ceiling_power. lia.
Qed.

End CallTraces.

Lemma complete_after_response
    {float token : Type} (upstream : nat -> @Request float -> Outcome)
    (prompt : string) (system_prompt : option string)
    (examples : option (list (string * string))) (temperature' : option float)
    (w : @World float token) (j : nat) (v : value) :
  cls (self w) <> CompletionsRepoBase ->
  (j <= 7)%nat ->
  retryable_run upstream (submission w prompt system_prompt examples temperature')
    (List.length (sent w)) j ->
  upstream (List.length (sent w) + j)%nat
    (submission w prompt system_prompt examples temperature')
  = Returns v ->
  complete upstream prompt system_prompt examples temperature' w
  = match response_text (cls (self w)) v with
    | Ok result =>
        (Ok result,
         add_log [mkLogEntry Info "Completed"]
           (add_log (response_log (cls (self w)) v)
              (add_sent (submission w prompt system_prompt examples temperature')
                 (after_failures
                    (submission w prompt system_prompt examples temperature') 1 j
                    (add_log [mkLogEntry Info "Running completion"] w)))))
    | Raise e =>
        (Raise e,
         add_log (response_log (cls (self w)) v)
           (add_sent (submission w prompt system_prompt examples temperature')
              (after_failures
                 (submission w prompt system_prompt examples temperature') 1 j
                 (add_log [mkLogEntry Info "Running completion"] w))))
    end.
Proof.
  intros Hcls Hj Hrun Hup. rewrite complete_eq.
  rewrite (_complete_returns_world upstream _ _ _ _ _
             (snd (log_event Info "Running completion" w)) j v Hcls Hj Hrun Hup).
  simpl self.
  destruct (response_text (cls (self w)) v) as [result | e] eqn:E; [reflexivity |].
  rewrite on_invalid_request_other; [reflexivity |].
  intros msg ->. unfold response_text in E.
  destruct (invalid_response v); [discriminate E |].
  destruct (response_content_raises_shape _ _ _ E) as [s [H | [H | H]]];
    discriminate H.
Qed.

(** X1.  [complete] on an instance of the base class itself raises
    [NotImplementedError]: nothing is submitted, no sleep is taken, the
    instance is left as it was, and only the first log line is written. *)
Theorem base_class_complete_raises
    {float token : Type} (upstream : nat -> @Request float -> Outcome)
    (prompt : string) (system_prompt : option string)
    (examples : option (list (string * string))) (temperature' : option float)
    (w : @World float token) :
  cls (self w) = CompletionsRepoBase ->
  complete upstream prompt system_prompt examples temperature' w
  = (Raise NotImplementedError,
     {| self := self w; sent := sent w; backoff := backoff w;
        log := (log w ++ [mkLogEntry Info "Running completion"])%list |}).
Proof.
  intros Hcls. rewrite complete_eq.
  unfold _complete, bind, get_self. simpl. rewrite Hcls. reflexivity.
Qed.

Lemma base_class_complete_raises_witness :
  complete upstream_eighth_time_lucky "hello" None None None
    (sample_world CompletionsRepoBase 8192)
  = (Raise NotImplementedError,
     {| self := sample_repo CompletionsRepoBase 8192; sent := []; backoff := [];
        log := ([] ++ [mkLogEntry Info "Running completion"])%list |}).
Proof.
  apply (base_class_complete_raises upstream_eighth_time_lucky "hello" None None None
           (sample_world CompletionsRepoBase 8192)).
  reflexivity.
Defined.

(** X2.  An upstream error that is neither one of the five retried
    classes nor an invalid-request error comes out of [complete] as it
    is, at the attempt where it occurs: after [j] retried failures there
    have been [j + 1] submissions and [j] sleeps with ceilings 1, 2, 4,
    ...; the instance and its publisher are untouched and "Completed" is
    not logged. *)
Theorem other_errors_pass_through
    {float token : Type} (upstream : nat -> @Request float -> Outcome)
    (prompt : string) (system_prompt : option string)
    (examples : option (list (string * string))) (temperature' : option float)
    (w : @World float token) (j : nat) (e : exn) :
  cls (self w) <> CompletionsRepoBase ->
  (j <= 7)%nat ->
  retryable_run upstream (submission w prompt system_prompt examples temperature')
    (List.length (sent w)) j ->
  upstream (List.length (sent w) + j)%nat
    (submission w prompt system_prompt examples temperature')
  = Raises e ->
  openai_retry_if_union e = false ->
  (forall msg, e <> InvalidRequestError msg) ->
  fst (complete upstream prompt system_prompt examples temperature' w) = Raise e
  /\ sent (snd (complete upstream prompt system_prompt examples temperature' w))
     = (sent w
        ++ repeat (submission w prompt system_prompt examples temperature') (S j))%list
  /\ backoff (snd (complete upstream prompt system_prompt examples temperature' w))
     = (backoff w ++ map (fun attempt => 2 ^ (Z.of_nat attempt - 1)) (seq 1 j))%list
  /\ self (snd (complete upstream prompt system_prompt examples temperature' w))
     = self w
  /\ log (snd (complete upstream prompt system_prompt examples temperature' w))
     = (log w ++ [mkLogEntry Info "Running completion"])%list.
Proof.
  intros Hcls Hj Hrun Hup Hretry Hother.
  rewrite complete_eq.
  rewrite (_complete_raises upstream _ _ _ _ _
             (snd (log_event Info "Running completion" w)) j Hcls Hj Hrun e Hup Hretry).
  rewrite on_invalid_request_other by exact Hother.
  split; [reflexivity |]. split; [cbn [snd sent add_log]; rewrite sent_after_attempts; reflexivity |].
  split; [simpl; now rewrite ceilings_are_powers |].
  split; reflexivity.
Qed.

Lemma other_errors_pass_through_witness :
  fst (complete upstream_refused "hello" None None None
         (sample_world OpenAICompletionsRepo 8192))
  = Raise (AuthenticationError "bad key")
  /\ sent (snd (complete upstream_refused "hello" None None None
                  (sample_world OpenAICompletionsRepo 8192)))
     = ([]
        ++ repeat (submission (sample_world OpenAICompletionsRepo 8192)
                     "hello" None None None) 2)%list
  /\ backoff (snd (complete upstream_refused "hello" None None None
                     (sample_world OpenAICompletionsRepo 8192)))
     = ([] ++ map (fun attempt => 2 ^ (Z.of_nat attempt - 1)) (seq 1 1))%list
  /\ self (snd (complete upstream_refused "hello" None None None
                  (sample_world OpenAICompletionsRepo 8192)))
     = sample_repo OpenAICompletionsRepo 8192
  /\ log (snd (complete upstream_refused "hello" None None None
                 (sample_world OpenAICompletionsRepo 8192)))
     = ([] ++ [mkLogEntry Info "Running completion"])%list.
Proof.
  apply (other_errors_pass_through upstream_refused "hello" None None None
           (sample_world OpenAICompletionsRepo 8192) 1
           (AuthenticationError "bad key")).
  - discriminate.
  - lia.
  - intros i Hi. destruct i as [| i]; [| lia].
    exists (Timeout "timed out"). split; reflexivity.
  - reflexivity.
  - reflexivity.
  - discriminate.
Defined.

(** X3.  When the upstream answers after [j] retried failures and the
    answer yields a text (or is invalid, yielding the empty string),
    [complete] returns it after [j + 1] submissions and [j] sleeps,
    leaves the instance and its publisher as they were, and has logged
    "Running completion", the formatter's lines for the response and
    "Completed", in this order. *)
Theorem response_ends_the_call
    {float token : Type} (upstream : nat -> @Request float -> Outcome)
    (prompt : string) (system_prompt : option string)
    (examples : option (list (string * string))) (temperature' : option float)
    (w : @World float token) (j : nat) (openai_response result : value) :
  cls (self w) <> CompletionsRepoBase ->
  (j <= 7)%nat ->
  retryable_run upstream (submission w prompt system_prompt examples temperature')
    (List.length (sent w)) j ->
  upstream (List.length (sent w) + j)%nat
    (submission w prompt system_prompt examples temperature')
  = Returns openai_response ->
  response_text (cls (self w)) openai_response = Ok result ->
  fst (complete upstream prompt system_prompt examples temperature' w) = Ok result
  /\ sent (snd (complete upstream prompt system_prompt examples temperature' w))
     = (sent w
        ++ repeat (submission w prompt system_prompt examples temperature') (S j))%list
  /\ backoff (snd (complete upstream prompt system_prompt examples temperature' w))
     = (backoff w ++ map (fun attempt => 2 ^ (Z.of_nat attempt - 1)) (seq 1 j))%list
  /\ self (snd (complete upstream prompt system_prompt examples temperature' w))
     = self w
  /\ log (snd (complete upstream prompt system_prompt examples temperature' w))
     = (log w
        ++ [mkLogEntry Info "Running completion"]
        ++ response_log (cls (self w)) openai_response
        ++ [mkLogEntry Info "Completed"])%list.
Proof.
  intros Hcls Hj Hrun Hup Htext.
  rewrite (complete_after_response upstream _ _ _ _ w j openai_response
             Hcls Hj Hrun Hup).
  rewrite Htext.
  split; [reflexivity |]. split; [cbn [snd sent add_log]; rewrite sent_after_attempts; reflexivity |].
  split; [simpl; now rewrite ceilings_are_powers |].
  split; [reflexivity |].
  simpl. now rewrite <- !app_assoc.
Qed.

Lemma response_ends_the_call_witness :
  fst (complete upstream_eighth_time_lucky "hello" None None None
         (sample_world OpenAIChatCompletionsRepo 8192))
  = Ok (VStr "Hello!")
  /\ sent (snd (complete upstream_eighth_time_lucky "hello" None None None
                  (sample_world OpenAIChatCompletionsRepo 8192)))
     = ([]
        ++ repeat (submission (sample_world OpenAIChatCompletionsRepo 8192)
                     "hello" None None None) 8)%list
  /\ backoff (snd (complete upstream_eighth_time_lucky "hello" None None None
                     (sample_world OpenAIChatCompletionsRepo 8192)))
     = ([] ++ map (fun attempt => 2 ^ (Z.of_nat attempt - 1)) (seq 1 7))%list
  /\ self (snd (complete upstream_eighth_time_lucky "hello" None None None
                  (sample_world OpenAIChatCompletionsRepo 8192)))
     = sample_repo OpenAIChatCompletionsRepo 8192
  /\ log (snd (complete upstream_eighth_time_lucky "hello" None None None
                 (sample_world OpenAIChatCompletionsRepo 8192)))
     = ([]
        ++ [mkLogEntry Info "Running completion"]
        ++ response_log OpenAIChatCompletionsRepo (chat_response "Hello!")
        ++ [mkLogEntry Info "Completed"])%list.
Proof.
  apply (response_ends_the_call upstream_eighth_time_lucky "hello" None None None
           (sample_world OpenAIChatCompletionsRepo 8192) 7
           (chat_response "Hello!") (VStr "Hello!")).
  - discriminate.
  - lia.
  - intros i Hi.
    do 7 (destruct i as [| i]; [eexists; split; reflexivity |]).
    lia.
  - reflexivity.
  - reflexivity.
Defined.

(** X4.  When the upstream answers with a dict from which the text cannot
    be read (no "choices", an empty list of choices, a choice without the
    expected field, ...), [complete] raises the [KeyError], [IndexError]
    or [TypeError] of the failing subscript: the answer is not retried,
    the publisher is untouched and "Completed" is not logged. *)
Theorem unreadable_response_raises
    {float token : Type} (upstream : nat -> @Request float -> Outcome)
    (prompt : string) (system_prompt : option string)
    (examples : option (list (string * string))) (temperature' : option float)
    (w : @World float token) (j : nat) (openai_response : value) (e : exn) :
  cls (self w) <> CompletionsRepoBase ->
  (j <= 7)%nat ->
  retryable_run upstream (submission w prompt system_prompt examples temperature')
    (List.length (sent w)) j ->
  upstream (List.length (sent w) + j)%nat
    (submission w prompt system_prompt examples temperature')
  = Returns openai_response ->
  is_dict openai_response = true ->
  response_content (cls (self w)) openai_response = Raise e ->
  fst (complete upstream prompt system_prompt examples temperature' w) = Raise e
  /\ (exists s, e = KeyError s \/ e = IndexError s \/ e = TypeError s)
  /\ sent (snd (complete upstream prompt system_prompt examples temperature' w))
     = (sent w
        ++ repeat (submission w prompt system_prompt examples temperature') (S j))%list
  /\ self (snd (complete upstream prompt system_prompt examples temperature' w))
     = self w
  /\ ~ In (mkLogEntry Info "Completed")
         (skipn (List.length (log w))
            (log (snd (complete upstream prompt system_prompt examples
                         temperature' w)))).
Proof.
  intros Hcls Hj Hrun Hup Hdict Hcontent.
  assert (Htext : response_text (cls (self w)) openai_response = Raise e).
  { unfold response_text, invalid_response.
    destruct openai_response; try discriminate Hdict. exact Hcontent. }
  assert (Hvalid : invalid_response openai_response = false).
  { unfold invalid_response. destruct openai_response; try discriminate Hdict.
    reflexivity. }
  rewrite (complete_after_response upstream _ _ _ _ w j openai_response
             Hcls Hj Hrun Hup).
  rewrite Htext.
  split; [reflexivity |].
  split; [eapply response_content_raises_shape; eassumption |].
  split; [cbn [snd sent add_log]; rewrite sent_after_attempts; reflexivity |].
  split; [reflexivity |].
  simpl log. rewrite <- app_assoc, skipn_app, skipn_all, Nat.sub_diag.
  unfold response_log. rewrite Hvalid.
  destruct (cls (self w)); simpl; intros [H | [H | H]];
    try discriminate H; exact H.
Qed.

Lemma unreadable_response_raises_witness :
  fst (complete upstream_no_choice "hello" None None None
         (sample_world OpenAIChatCompletionsRepo 8192))
  = Raise (IndexError "list index out of range")
  /\ (exists s,
        IndexError "list index out of range" = KeyError s
        \/ IndexError "list index out of range" = IndexError s
        \/ IndexError "list index out of range" = TypeError s)
  /\ sent (snd (complete upstream_no_choice "hello" None None None
                  (sample_world OpenAIChatCompletionsRepo 8192)))
     = ([]
        ++ repeat (submission (sample_world OpenAIChatCompletionsRepo 8192)
                     "hello" None None None) 1)%list
  /\ self (snd (complete upstream_no_choice "hello" None None None
                  (sample_world OpenAIChatCompletionsRepo 8192)))
     = sample_repo OpenAIChatCompletionsRepo 8192
  /\ ~ In (mkLogEntry Info "Completed")
         (skipn 0
            (log (snd (complete upstream_no_choice "hello" None None None
                         (sample_world OpenAIChatCompletionsRepo 8192))))).
Proof.
  apply (unreadable_response_raises upstream_no_choice "hello" None None None
           (sample_world OpenAIChatCompletionsRepo 8192) 0
           (VDict [("choices", VList [])])
           (IndexError "list index out of range")).
  - discriminate.
  - lia.
  - intros i Hi. lia.
  - reflexivity.
  - reflexivity.
  - reflexivity.
Defined.

(** X5.  A response that is [None] or no dict makes [complete] return the
    empty string and log the fact at error level before "Completed"; the
    raw-text formatter has by then logged its "Ran OpenAI completion"
    line, the chat-style formatter has not logged its own. *)
Theorem invalid_response_is_logged
    {float token : Type} (upstream : nat -> @Request float -> Outcome)
    (prompt : string) (system_prompt : option string)
    (examples : option (list (string * string))) (temperature' : option float)
    (w : @World float token) (j : nat) (openai_response : value) :
  cls (self w) <> CompletionsRepoBase ->
  (j <= 7)%nat ->
  retryable_run upstream (submission w prompt system_prompt examples temperature')
    (List.length (sent w)) j ->
  upstream (List.length (sent w) + j)%nat
    (submission w prompt system_prompt examples temperature')
  = Returns openai_response ->
  openai_response = VNone \/ is_dict openai_response = false ->
  fst (complete upstream prompt system_prompt examples temperature' w)
  = Ok (VStr "")
  /\ log (snd (complete upstream prompt system_prompt examples temperature' w))
     = (log w
        ++ mkLogEntry Info "Running completion"
           :: match cls (self w) with
              | OpenAICompletionsRepo => [mkLogEntry Info "Ran OpenAI completion"]
              | _ => []
              end
        ++ [mkLogEntry Error "OpenAI chat completion returned invalid response";
            mkLogEntry Info "Completed"])%list.
Proof.
  intros Hcls Hj Hrun Hup Hshape.
  assert (Hinvalid : invalid_response openai_response = true).
  { unfold invalid_response. destruct Hshape as [-> | ->]; [reflexivity |].
    apply orb_true_r. }
  rewrite (complete_after_response upstream _ _ _ _ w j openai_response
             Hcls Hj Hrun Hup).
  unfold response_text, response_log. rewrite Hinvalid.
  split; [reflexivity |].
  destruct (cls (self w)); simpl; rewrite <- !app_assoc; reflexivity.
Qed.

Lemma invalid_response_is_logged_witness :
  fst (complete upstream_silent "hello" None None None
         (sample_world OpenAICompletionsRepo 8192))
  = Ok (VStr "")
  /\ log (snd (complete upstream_silent "hello" None None None
                 (sample_world OpenAICompletionsRepo 8192)))
     = ([]
        ++ mkLogEntry Info "Running completion"
           :: [mkLogEntry Info "Ran OpenAI completion"]
        ++ [mkLogEntry Error "OpenAI chat completion returned invalid response";
            mkLogEntry Info "Completed"])%list.
Proof.
  apply (invalid_response_is_logged upstream_silent "hello" None None None
           (sample_world OpenAICompletionsRepo 8192) 1 VNone).
  - discriminate.
  - lia.
  - intros i Hi. destruct i as [| i]; [| lia].
    exists (RateLimitError "slow down"). split; reflexivity.
  - reflexivity.
  - left. reflexivity.
Defined.

(** ** Sleeps and submissions, whatever the upstream answers *)

Section Sleeps.

Context {float : Type} {token : Type}.
Variable upstream : nat -> @Request float -> Outcome.

#[local] Abbreviation World := (@World float token).
#[local] Abbreviation M := (@M float token).

Lemma log_event_backoff (l : Level) (e : string) :
  preserves (@backoff float token) (log_event l e).
Proof. intros w. reflexivity. Qed.

Lemma create_backoff (req : Request) :
  preserves (@backoff float token) (create upstream req).
Proof. intros w. unfold create. destruct (upstream _ _); reflexivity. Qed.

Lemma update_publish_service_backoff (g : PublishService -> PublishService) :
  preserves (@backoff float token) (update_publish_service g).
Proof. intros w. reflexivity. Qed.

Lemma unwind_sections_backoff (fuel : nat) :
  preserves (@backoff float token) (unwind_sections fuel).
Proof.
  induction fuel as [| fuel IH]; simpl.
  - apply preserves_ret.
  - apply preserves_bind; [apply preserves_get_self |].
    intros r. destruct (1 <? _).
    + apply preserves_bind; [apply update_publish_service_backoff | intros _; exact IH].
    + apply preserves_ret.
Qed.

Lemma on_invalid_request_backoff (e : exn) :
  preserves (@backoff float token) (on_invalid_request e).
Proof.
  destruct e; try apply preserves_raise.
  simpl. destruct (negb _); [apply preserves_raise |].
  apply preserves_bind; [apply preserves_get_self | intros r].
  apply preserves_bind; [apply unwind_sections_backoff | intros _].
  apply preserves_bind; [apply update_publish_service_backoff | intros _].
  apply preserves_raise.
Qed.

Lemma body_of_backoff c prompt system_prompt examples max_tokens' temperature' :
  preserves (@backoff float token)
    (body_of c upstream prompt system_prompt examples max_tokens' temperature').
Proof.
  assert (Hchat : preserves (@backoff float token)
                    (OpenAIChatCompletionsRepo_body upstream prompt system_prompt
                       examples max_tokens' temperature')).
  { unfold OpenAIChatCompletionsRepo_body.
    apply preserves_bind; [apply preserves_get_self | intros r].
    apply preserves_bind; [apply create_backoff | intros v].
    destruct (invalid_response v);
      (apply preserves_bind; [apply log_event_backoff | intros _]);
      [apply preserves_ret | apply preserves_lift]. }
  destruct c; simpl; try exact Hchat.
  unfold OpenAICompletionsRepo_body.
  apply preserves_bind; [apply preserves_get_self | intros r].
  apply preserves_bind; [apply create_backoff | intros v].
  apply preserves_bind; [apply log_event_backoff | intros _].
  destruct (invalid_response v).
  - apply preserves_bind; [apply log_event_backoff | intros _]. apply preserves_ret.
  - apply preserves_lift.
Qed.

Lemma body_of_sent c prompt system_prompt examples max_tokens' temperature' (w : World) :
  cls (self w) = c -> c <> CompletionsRepoBase ->
  sent (snd (body_of c upstream prompt system_prompt examples max_tokens'
               temperature' w))
  = (sent w
     ++ [request_of (self w) prompt system_prompt examples max_tokens'
           temperature'])%list.
Proof.
  intros Hc Hbase. unfold request_of. rewrite Hc.
  destruct c; [congruence | apply chat_body_sent | apply text_body_sent].
Qed.

(** The loop sleeps once between two attempts and not after the last. *)
Lemma retrying_sleeps c prompt system_prompt examples max_tokens' temperature' :
  c <> CompletionsRepoBase ->
  forall left attempt (w : World),
    cls (self w) = c ->
    exists k, (1 <= k <= S left)%nat
      /\ sent (snd (retrying openai_retry left attempt
                      (body_of c upstream prompt system_prompt examples max_tokens'
                         temperature') w))
         = (sent w
            ++ repeat (request_of (self w) prompt system_prompt examples max_tokens'
                         temperature') k)%list
      /\ backoff (snd (retrying openai_retry left attempt
                         (body_of c upstream prompt system_prompt examples
                            max_tokens' temperature') w))
         = (backoff w
            ++ map (wait_ceiling openai_retry) (seq attempt (k - 1)))%list.
Proof.
  intros Hbase left.
  induction left as [| left IH]; intros attempt w Hc; simpl;
    pose proof (body_of_self upstream c prompt system_prompt examples max_tokens'
                  temperature' w) as Hs;
    pose proof (body_of_backoff c prompt system_prompt examples max_tokens'
                  temperature' w) as Hb;
    pose proof (body_of_sent c prompt system_prompt examples max_tokens'
                  temperature' w Hc Hbase) as Hw;
    destruct (body_of c upstream prompt system_prompt examples max_tokens'
                temperature' w) as [[a | e] w1]; simpl in *;
    try (exists 1%nat; split; [lia |]; split;
         [exact Hw | now rewrite Hb, app_nil_r]);
    destruct (openai_retry_if_union e); simpl;
    try (exists 1%nat; split; [lia |]; split;
         [exact Hw | now rewrite Hb, app_nil_r]).
  destruct (IH (S attempt) (sleep openai_retry attempt w1)) as [k [Hk [Hsk Hbk]]].
  { simpl. now rewrite Hs. }
  exists (S k). split; [lia |]. split.
  - rewrite Hsk. simpl. rewrite Hw, Hs, <- app_assoc. reflexivity.
  - rewrite Hbk. simpl backoff. rewrite Hb, <- app_assoc.
    replace (S k - 1)%nat with (S (k - 1)) by lia. reflexivity.
Qed.

Lemma complete_sleeps prompt system_prompt examples temperature' (w : World) :
  cls (self w) <> CompletionsRepoBase ->
  exists k, (1 <= k <= 8)%nat
    /\ sent (snd (complete upstream prompt system_prompt examples temperature' w))
       = (sent w
          ++ repeat (submission w prompt system_prompt examples temperature') k)%list
    /\ backoff (snd (complete upstream prompt system_prompt examples temperature' w))
       = (backoff w ++ map (wait_ceiling openai_retry) (seq 1 (k - 1)))%list.
Proof.
  intros Hcls.
  destruct (retrying_sleeps (cls (self w)) prompt
              (supplied system_prompt default_system_prompt) (supplied examples [])
              (budget (self w) prompt) (supplied temperature' (temperature (self w)))
              Hcls 7 1%nat (snd (log_event Info "Running completion" w)) eq_refl)
    as [k [Hk [Hsent Hback]]].
  exists k. split; [exact Hk |].
  unfold complete.
  change (bind get_self ?f w) with (f (self w) w). cbv beta.
  change (bind (log_event ?l ?e) ?f w) with (f tt (snd (log_event l e w))).
  cbv beta.
  assert (Hlog : forall B (f : World -> B),
            (forall l e, preserves f (log_event l e)) ->
            forall result : value,
              preserves f (bind (log_event Info "Completed") (fun _ => ret result))).
  { intros B f Hf result. apply preserves_bind; [apply Hf | intros _].
    apply preserves_ret. }
  split.
  - rewrite bind_preserved by (apply Hlog; apply log_event_sent).
    rewrite try_except_preserved by apply on_invalid_request_sent.
    rewrite _complete_body by exact Hcls. exact Hsent.
  - rewrite bind_preserved by (apply Hlog; apply log_event_backoff).
    rewrite try_except_preserved by apply on_invalid_request_backoff.
    rewrite _complete_body by exact Hcls. exact Hback.
Qed.

End Sleeps.

(** X6.  Whatever the upstream answers, a call of [complete] on a
    formatter makes between 1 and 8 submissions of one and the same
    request and takes exactly one sleep between two consecutive ones,
    none after the last; the ceilings of the sleep windows are 1, 2, 4,
    ..., so within the 8 attempts none exceeds 64 and the cap of 240 is
    never reached. *)
Theorem sleeps_between_attempts
    {float token : Type} (upstream : nat -> @Request float -> Outcome)
    (prompt : string) (system_prompt : option string)
    (examples : option (list (string * string))) (temperature' : option float)
    (w : @World float token) :
  cls (self w) <> CompletionsRepoBase ->
  exists k, (1 <= k <= 8)%nat
    /\ sent (snd (complete upstream prompt system_prompt examples temperature' w))
       = (sent w
          ++ repeat (submission w prompt system_prompt examples temperature') k)%list
    /\ backoff (snd (complete upstream prompt system_prompt examples temperature' w))
       = (backoff w
          ++ map (fun attempt => 2 ^ (Z.of_nat attempt - 1)) (seq 1 (k - 1)))%list
    /\ Forall (fun ceiling => 1 <= ceiling <= 64)
         (map (fun attempt => 2 ^ (Z.of_nat attempt - 1)) (seq 1 (k - 1))).
Proof.
  intros Hcls.
  destruct (complete_sleeps upstream prompt system_prompt examples temperature' w Hcls)
    as [k [Hk [Hsent Hback]]].
  exists k. split; [exact Hk |]. split; [exact Hsent |]. split.
  - rewrite Hback. now rewrite ceilings_are_powers by lia.
  - apply Forall_forall. intros x Hx. apply in_map_iff in Hx.
    destruct Hx as [a [<- Ha]]. apply in_seq in Ha.
    split.
    + assert (0 < 2 ^ (Z.of_nat a - 1)) by (apply Z.pow_pos_nonneg; lia). lia.
    + change 64 with (2 ^ 6). apply Z.pow_le_mono_r; lia.
Qed.

Lemma sleeps_between_attempts_witness :
  exists k, (1 <= k <= 8)%nat
    /\ sent (snd (complete upstream_down "hello" None None None
                    (sample_world OpenAIChatCompletionsRepo 8192)))
       = ([]
          ++ repeat (submission (sample_world OpenAIChatCompletionsRepo 8192)
                       "hello" None None None) k)%list
    /\ backoff (snd (complete upstream_down "hello" None None None
                       (sample_world OpenAIChatCompletionsRepo 8192)))
       = ([] ++ map (fun attempt => 2 ^ (Z.of_nat attempt - 1)) (seq 1 (k - 1)))%list
    /\ Forall (fun ceiling => 1 <= ceiling <= 64)
         (map (fun attempt => 2 ^ (Z.of_nat attempt - 1)) (seq 1 (k - 1))).
Proof.
  apply (sleeps_between_attempts upstream_down "hello" None None None
           (sample_world OpenAIChatCompletionsRepo 8192)).
  discriminate.
Defined.

(** ** Defaults *)

(** X7.  The arguments [complete] is called without take their defaults:
    the system prompt "You are a helpful assistant.", no examples, the
    instance's temperature; so a chat-style formatter called with the
    prompt alone submits the two messages [system: default, user: prompt]
    at the instance's temperature, and a temperature that is passed
    takes the place of the instance's. *)
Theorem omitted_arguments_take_defaults
    {float token : Type} (upstream : nat -> @Request float -> Outcome)
    (prompt : string) (w : @World float token) :
  cls (self w) = OpenAIChatCompletionsRepo ->
  complete upstream prompt None None None w
  = complete upstream prompt (Some "You are a helpful assistant.") (Some [])
      (Some (temperature (self w))) w
  /\ (exists k, (1 <= k <= 8)%nat
        /\ sent (snd (complete upstream prompt None None None w))
           = (sent w
              ++ repeat
                   (ChatCompletion_create (model (self w))
                      [mkMessage "system" "You are a helpful assistant.";
                       mkMessage "user" prompt]
                      (temperature (self w))
                      (Z.min (max_tokens (self w))
                         (context_limit (self w)
                          - Z.of_nat (List.length (tokenizer (self w) prompt)))))
                   k)%list)
  /\ (forall system_prompt examples t,
        exists k req, (1 <= k <= 8)%nat
          /\ sent (snd (complete upstream prompt system_prompt examples (Some t) w))
             = (sent w ++ repeat req k)%list
          /\ request_temperature req = t).
Proof.
  intros Hcls. split; [reflexivity |]. split.
  - destruct (complete_sent upstream prompt None None None w) as [k [Hk Hsent]];
      [congruence |].
    exists k. split; [exact Hk |]. rewrite Hsent.
    unfold submission, request_of. rewrite Hcls. reflexivity.
  - intros system_prompt examples t.
    destruct (complete_sent upstream prompt system_prompt examples (Some t) w)
      as [k [Hk Hsent]]; [congruence |].
    exists k, (submission w prompt system_prompt examples (Some t)).
    split; [exact Hk |]. split; [exact Hsent |].
    unfold submission, request_of. rewrite Hcls. reflexivity.
Qed.

Lemma omitted_arguments_take_defaults_witness :
  complete upstream_down "hello" None None None turbo_world
  = complete upstream_down "hello" (Some "You are a helpful assistant.") (Some [])
      (Some 8) turbo_world
  /\ (exists k, (1 <= k <= 8)%nat
        /\ sent (snd (complete upstream_down "hello" None None None turbo_world))
           = ([]
              ++ repeat
                   (ChatCompletion_create "gpt-3.5-turbo"
                      [mkMessage "system" "You are a helpful assistant.";
                       mkMessage "user" "hello"]
                      8 (Z.min 2000 (4096 - 5)))
                   k)%list)
  /\ (forall system_prompt examples t,
        exists k req, (1 <= k <= 8)%nat
          /\ sent (snd (complete upstream_down "hello" system_prompt examples
                          (Some t) turbo_world))
             = ([] ++ repeat req k)%list
          /\ request_temperature req = t).
Proof.
  apply (omitted_arguments_take_defaults upstream_down "hello" turbo_world).
  reflexivity.
Defined.

(** ** The marker test *)

Lemma prefix_spec (a b : string) :
  String.prefix a b = true <-> exists post, b = (a ++ post)%string.
Proof.
  revert b. induction a as [| x a IH]; intros b.
  - split; [intros _; now exists b | intros _; now destruct b].
  - destruct b as [| y b]; simpl.
    + split; [discriminate | intros [post H]; discriminate H].
    + destruct (Ascii.ascii_dec x y) as [-> | Hxy].
      * rewrite IH. split; intros [post H]; exists post; congruence.
      * split; [discriminate | intros [post H]; congruence].
Qed.

(** X8.  The test [needle in haystack] that decides the special case
    holds exactly when the message is some text, the needle, and some
    more text: the marker may stand anywhere in the message. *)
Theorem contains_spec (needle haystack : string) :
  contains needle haystack = true
  <-> exists before after, haystack = (before ++ needle ++ after)%string.
Proof.
  induction haystack as [| c rest IH].
  - cbn [contains]. rewrite orb_false_r, prefix_spec. split.
    + intros [post H]. exists "", post. exact H.
    + intros [before [after H]]. destruct before; [now exists after | discriminate H].
  - cbn [contains]. rewrite orb_true_iff, prefix_spec, IH. split.
    + intros [[post H] | [before [after H]]].
      * exists "", post. exact H.
      * exists (String c before), after. simpl. now rewrite H.
    + intros [before [after H]]. destruct before as [| c' before].
      * left. now exists after.
      * right. exists before, after. simpl in H. congruence.
Qed.

(** ** The factory, read backwards *)

(** X10.  The factory either returns an instance or raises, and each
    outcome tells the reason: an instance is of a registered subclass
    (never of the base class) that declares the model, and is what the
    constructor builds from the arguments; an error is the [ValueError]
    naming the model, and then no registered subclass declares it. *)
Theorem get_completions_repo_outcome
    {float token : Type} (get_tokenizer : Z -> string -> list token)
    (publish_service' : PublishService) (model' : string)
    (max_tokens' min_tokens' context_limit' : Z) (temperature' : float) :
  match get_completions_repo get_tokenizer publish_service' model' max_tokens'
          min_tokens' context_limit' temperature' with
  | Ok r =>
      In (cls r) __subclasses__
      /\ cls r <> CompletionsRepoBase
      /\ In model' (models (cls r))
      /\ r = __init__ get_tokenizer (cls r) publish_service' model' max_tokens'
               min_tokens' context_limit' temperature'
  | Raise e =>
      e = ValueError ("Model " ++ model' ++ " not implemented")
      /\ forall c, In c __subclasses__ -> ~ In model' (models c)
  end.
Proof.
  assert (Hdeclared : forall c,
            existsb (String.eqb model') (models c) = true -> In model' (models c)).
  { intros c H. apply existsb_exists in H. destruct H as [m [Hin Heq]].
    apply String.eqb_eq in Heq. now subst m. }
  assert (Hundeclared : forall c,
            existsb (String.eqb model') (models c) = false -> ~ In model' (models c)).
  { intros c H Hin.
    assert (existsb (String.eqb model') (models c) = true) as Htrue.
    { apply existsb_exists. exists model'. split; [exact Hin | apply String.eqb_refl]. }
    congruence. }
  unfold get_completions_repo. cbn [first_implementation __subclasses__].
  destruct (existsb (String.eqb model') (models OpenAIChatCompletionsRepo)) eqn:Echat.
  - cbn [cls __init__]. repeat split; [left; reflexivity | discriminate | auto].
  - destruct (existsb (String.eqb model') (models OpenAICompletionsRepo)) eqn:Etext.
    + cbn [cls __init__].
      repeat split; [right; left; reflexivity | discriminate | auto].
    + split; [reflexivity |].
      intros c [<- | [<- | []]]; auto.
Qed.

(** ** What never comes out *)

Lemma on_invalid_request_reraises
    {float token : Type} (e : exn) (w : @World float token) :
  fst (on_invalid_request e w) = Raise e.
Proof.
  destruct e; try reflexivity. apply on_invalid_request_run.
Qed.

Lemma retrying_raises
    {float token : Type} {A : Type} (fn : @M float token A) :
  forall left attempt w e,
    fst (retrying openai_retry left attempt fn w) = Raise e ->
    openai_retry_if_union e = false.
Proof.
  induction left as [| left IH]; intros attempt w e; simpl;
    destruct (fn w) as [[a | e0] w1]; simpl; try discriminate;
    destruct (openai_retry_if_union e0) eqn:E; simpl;
    try (intros H; injection H as <-; first [exact E | reflexivity]).
  apply IH.
Qed.

(** X12.  None of the five error classes the policy retries on ever comes
    out of [complete] as such, whatever the upstream does: such an error
    is either retried away or, at the eighth attempt, wrapped in
    [RetryError]. *)
Theorem retried_errors_never_escape
    {float token : Type} (upstream : nat -> @Request float -> Outcome)
    (prompt : string) (system_prompt : option string)
    (examples : option (list (string * string))) (temperature' : option float)
    (w : @World float token) (e : exn) :
  fst (complete upstream prompt system_prompt examples temperature' w) = Raise e ->
  openai_retry_if_union e = false.
Proof.
  rewrite complete_eq.
  match goal with
  | |- context [_complete ?a ?b ?c ?d ?e ?f ?g] =>
      destruct (_complete a b c d e f g) as [[result | e1] w1] eqn:E
  end; [discriminate |].
  apply (f_equal fst) in E. cbn [fst] in E.
  pose proof (on_invalid_request_reraises e1 w1) as Hre.
  destruct (on_invalid_request e1 w1) as [[result | e2] w2]; cbn [fst] in Hre |- *;
    [discriminate Hre |].
  injection Hre as ->. intros H. injection H as <-.
  unfold _complete, bind, get_self in E. simpl in E.
  destruct (cls (self w)).
  - injection E as <-. reflexivity.
  - eapply retrying_raises. exact E.
  - eapply retrying_raises. exact E.
Qed.

Lemma retried_errors_never_escape_witness :
  fst (complete upstream_down "hello" None None None
         (sample_world OpenAIChatCompletionsRepo 8192))
  = Raise (RetryError (Timeout "timed out"))
  /\ openai_retry_if_union (RetryError (Timeout "timed out")) = false.
Proof.
  split; [reflexivity |].
  apply (retried_errors_never_escape upstream_down "hello" None None None
           (sample_world OpenAIChatCompletionsRepo 8192)).
  reflexivity.
Defined.

(** ** The field that is only stored *)

Section MinTokens.

Context {float : Type} {token : Type}.
Variable upstream : nat -> @Request float -> Outcome.
Variable n : Z.

#[local] Abbreviation World := (@World float token).
#[local] Abbreviation M := (@M float token).

Lemma ignores_ret {A : Type} (a : A) : ignores_min_tokens n (ret a : M A).
Proof. intros w. reflexivity. Qed.

Lemma ignores_raise {A : Type} (e : exn) : ignores_min_tokens n (raise e : M A).
Proof. intros w. reflexivity. Qed.

Lemma ignores_lift {A : Type} (r : Result A) : ignores_min_tokens n (lift r : M A).
Proof. intros w. reflexivity. Qed.

Lemma ignores_log_event (l : Level) (e : string) :
  ignores_min_tokens n (log_event l e : M unit).
Proof. intros w. reflexivity. Qed.

Lemma ignores_create (req : Request) :
  ignores_min_tokens n (create upstream req : M value).
Proof. intros w. unfold create. simpl. destruct (upstream _ _); reflexivity. Qed.

Lemma ignores_update_publish_service (g : PublishService -> PublishService) :
  ignores_min_tokens n (update_publish_service g : M unit).
Proof. intros w. reflexivity. Qed.

Lemma ignores_bind {A B : Type} (m : M A) (k : A -> M B) :
  ignores_min_tokens n m -> (forall a, ignores_min_tokens n (k a)) ->
  ignores_min_tokens n (bind m k).
Proof.
  intros Hm Hk w. unfold bind. rewrite Hm.
  destruct (m w) as [[a | e] w1]; simpl; [apply Hk | reflexivity].
Qed.

(** A continuation of [get_self] that reads other fields only. *)
Lemma ignores_get_self {A : Type} (k : CompletionsRepo -> M A) :
  (forall r, ignores_min_tokens n (k r)) ->
  (forall w : World, k (self (with_min_tokens n w)) = k (self w)) ->
  ignores_min_tokens n (bind get_self k).
Proof.
  intros Hk Hread w. unfold bind, get_self. rewrite Hread. apply Hk.
Qed.

Lemma ignores_try_except {A : Type} (m : M A) (handler : exn -> M A) :
  ignores_min_tokens n m -> (forall e, ignores_min_tokens n (handler e)) ->
  ignores_min_tokens n (try_except m handler).
Proof.
  intros Hm Hh w. unfold try_except. rewrite Hm.
  destruct (m w) as [[a | e] w1]; simpl; [reflexivity | apply Hh].
Qed.

Lemma ignores_retrying {A : Type} (r : Retrying) (fn : M A) :
  ignores_min_tokens n fn ->
  forall left attempt, ignores_min_tokens n (retrying r left attempt fn).
Proof.
  intros Hfn left.
  induction left as [| left IH]; intros attempt w; simpl; rewrite Hfn;
    destruct (fn w) as [[a | e] w1]; simpl; try reflexivity;
    destruct (retry_pred r e); try reflexivity.
  apply (IH (S attempt) (sleep r attempt w1)).
Qed.

Lemma ignores_unwind_sections (fuel : nat) :
  ignores_min_tokens n (unwind_sections fuel : M unit).
Proof.
  induction fuel as [| fuel IH]; simpl; [apply ignores_ret |].
  apply ignores_get_self; [| reflexivity].
  intros r. destruct (1 <? _); [| apply ignores_ret].
  apply ignores_bind; [apply ignores_update_publish_service | intros _; exact IH].
Qed.

Lemma ignores_on_invalid_request (e : exn) :
  ignores_min_tokens n (on_invalid_request e : M value).
Proof.
  destruct e; try apply ignores_raise.
  simpl. destruct (negb _); [apply ignores_raise |].
  apply ignores_get_self; [| reflexivity].
  intros r.
  apply ignores_bind; [apply ignores_unwind_sections | intros _].
  apply ignores_bind; [apply ignores_update_publish_service | intros _].
  apply ignores_raise.
Qed.

Lemma ignores_body_of c prompt system_prompt examples max_tokens' temperature' :
  ignores_min_tokens n
    (body_of c upstream prompt system_prompt examples max_tokens' temperature'
     : M value).
Proof.
  assert (Hchat : ignores_min_tokens n
                    (OpenAIChatCompletionsRepo_body upstream prompt system_prompt
                       examples max_tokens' temperature' : M value)).
  { unfold OpenAIChatCompletionsRepo_body.
    apply ignores_get_self; [| reflexivity]. intros r.
    apply ignores_bind; [apply ignores_create | intros v].
    destruct (invalid_response v);
      (apply ignores_bind; [apply ignores_log_event | intros _]);
      [apply ignores_ret | apply ignores_lift]. }
  destruct c; simpl; try exact Hchat.
  unfold OpenAICompletionsRepo_body.
  apply ignores_get_self; [| reflexivity]. intros r.
  apply ignores_bind; [apply ignores_create | intros v].
  apply ignores_bind; [apply ignores_log_event | intros _].
  destruct (invalid_response v).
  - apply ignores_bind; [apply ignores_log_event | intros _]. apply ignores_ret.
  - apply ignores_lift.
Qed.

Lemma ignores__complete prompt system_prompt examples max_tokens' temperature' :
  ignores_min_tokens n
    (_complete upstream prompt system_prompt examples max_tokens' temperature'
     : M value).
Proof.
  unfold _complete.
  apply ignores_get_self; [| reflexivity]. intros r.
  destruct (cls r).
  - apply ignores_raise.
  - apply ignores_retrying.
    apply (ignores_body_of OpenAIChatCompletionsRepo).
  - apply ignores_retrying.
    apply (ignores_body_of OpenAICompletionsRepo).
Qed.

Lemma ignores_complete prompt system_prompt examples temperature' :
  ignores_min_tokens n
    (complete upstream prompt system_prompt examples temperature' : M value).
Proof.
  unfold complete.
  apply ignores_get_self; [| reflexivity]. intros r.
  apply ignores_bind; [apply ignores_log_event | intros _].
  apply ignores_bind.
  - apply ignores_try_except;
      [apply ignores__complete | apply ignores_on_invalid_request].
  - intros result.
    apply ignores_bind; [apply ignores_log_event | intros _]. apply ignores_ret.
Qed.

End MinTokens.

(** X9.  [min_tokens] is stored by the constructor and read nowhere: a
    call of [complete] on an instance whose [min_tokens] is another value
    gives the same result and the same world (submissions, sleeps, log,
    publisher), and leaves that other value in place. *)
Theorem min_tokens_is_never_read
    {float token : Type} (upstream : nat -> @Request float -> Outcome)
    (prompt : string) (system_prompt : option string)
    (examples : option (list (string * string))) (temperature' : option float)
    (n : Z) (w : @World float token) :
  complete upstream prompt system_prompt examples temperature' (with_min_tokens n w)
  = (fst (complete upstream prompt system_prompt examples temperature' w),
     with_min_tokens n
       (snd (complete upstream prompt system_prompt examples temperature' w))).
Proof. apply ignores_complete. Qed.

(** ** The publisher across calls *)

(** X11.  Nothing remembers that the warning has been given: when the
    upstream keeps refusing the model, a second call of [complete] on the
    same instance raises again and publishes the warning a second time,
    after the updates that were there; the stack, cut down to its root by
    the first call, stays so. *)
Theorem warning_is_published_at_every_call
    {float token : Type} (upstream : nat -> @Request float -> Outcome)
    (prompt prompt2 : string) (system_prompt system_prompt2 : option string)
    (examples examples2 : option (list (string * string)))
    (temperature' temperature2 : option float)
    (w : @World float token) (msg : string) :
  cls (self w) <> CompletionsRepoBase ->
  (forall k req, upstream k req = Raises (InvalidRequestError msg)) ->
  contains gpt4_marker msg = true ->
  fst (complete upstream prompt2 system_prompt2 examples2 temperature2
         (snd (complete upstream prompt system_prompt examples temperature' w)))
  = Raise (InvalidRequestError msg)
  /\ updates
       (publish_service
          (self (snd (complete upstream prompt2 system_prompt2 examples2 temperature2
                        (snd (complete upstream prompt system_prompt examples
                                temperature' w))))))
     = (updates (publish_service (self w)) ++ [gpt4_warning; gpt4_warning])%list
  /\ sections_stack
       (publish_service
          (self (snd (complete upstream prompt2 system_prompt2 examples2 temperature2
                        (snd (complete upstream prompt system_prompt examples
                                temperature' w))))))
     = firstn 1 (sections_stack (publish_service (self w))).
Proof.
  intros Hcls Hall Hmarker.
  assert (Hrun : forall (w0 : @World float token) req,
            retryable_run upstream req (List.length (sent w0)) 0).
  { intros w0 req i Hi. lia. }
  destruct (complete_invalid_request upstream prompt system_prompt examples
              temperature' w 0 Hcls (Nat.le_0_l 7) (Hrun w _) msg (Hall _ _))
    as [_ Hpub1].
  assert (Hcls1 : cls (self (snd (complete upstream prompt system_prompt examples
                                    temperature' w)))
                  <> CompletionsRepoBase).
  { pose proof (complete_configuration upstream prompt system_prompt examples
                  temperature' w) as Hc.
    unfold configuration in Hc. injection Hc as Hc _ _ _ _ _. now rewrite Hc. }
  destruct (complete_invalid_request upstream prompt2 system_prompt2 examples2
              temperature2 _ 0 Hcls1 (Nat.le_0_l 7) (Hrun _ _) msg (Hall _ _))
    as [Hres2 Hpub2].
  rewrite Hmarker in Hpub1, Hpub2.
  split; [exact Hres2 |].
  rewrite Hpub2, Hpub1. simpl. split.
  - now rewrite <- app_assoc.
  - now destruct (sections_stack (publish_service (self w))).
Qed.

Lemma warning_is_published_at_every_call_witness :
  fst (complete upstream_no_access "again" None None None
         (snd (complete upstream_no_access "hello" None None None
                 (sample_world OpenAIChatCompletionsRepo 8192))))
  = Raise (InvalidRequestError no_access_message)
  /\ updates
       (publish_service
          (self (snd (complete upstream_no_access "again" None None None
                        (snd (complete upstream_no_access "hello" None None None
                                (sample_world OpenAIChatCompletionsRepo 8192)))))))
     = (["started"] ++ [gpt4_warning; gpt4_warning])%list
  /\ sections_stack
       (publish_service
          (self (snd (complete upstream_no_access "again" None None None
                        (snd (complete upstream_no_access "hello" None None None
                                (sample_world OpenAIChatCompletionsRepo 8192)))))))
     = firstn 1 ["root"; "plan"; "codegen"].
Proof.
  apply (warning_is_published_at_every_call upstream_no_access
           "hello" "again" None None None None None None
           (sample_world OpenAIChatCompletionsRepo 8192) no_access_message).
  - discriminate.
  - intros k req. unfold upstream_no_access, scripted. now destruct k.
  - reflexivity.
Defined.

(** X13.  The instance, and with it the publisher, is written in one case
    only: whatever the upstream does, a call of [complete] either leaves
    the instance exactly as it was or ends in an invalid-request error
    whose message contains the marker. *)
Theorem instance_is_written_only_for_the_marker
    {float token : Type} (upstream : nat -> @Request float -> Outcome)
    (prompt : string) (system_prompt : option string)
    (examples : option (list (string * string))) (temperature' : option float)
    (w : @World float token) :
  self (snd (complete upstream prompt system_prompt examples temperature' w)) = self w
  \/ exists msg,
       fst (complete upstream prompt system_prompt examples temperature' w)
       = Raise (InvalidRequestError msg)
       /\ contains gpt4_marker msg = true.
Proof.
  rewrite complete_eq.
  match goal with
  | |- context [_complete ?a ?b ?c ?d ?e ?f ?g] =>
      pose proof (_complete_self a b c d e f g) as Hself;
      destruct (_complete a b c d e f g) as [[result | e1] w1]
  end; cbn [snd] in Hself; simpl self in Hself.
  - left. exact Hself.
  - destruct (contains gpt4_marker
                match e1 with InvalidRequestError msg => msg | _ => "" end) eqn:E.
    + destruct e1; try discriminate E.
      right. exists msg. split; [| exact E].
      pose proof (on_invalid_request_reraises (InvalidRequestError msg) w1) as Hre.
      destruct (on_invalid_request (InvalidRequestError msg) w1) as [[a | e2] w2];
        cbn [fst] in Hre |- *; [discriminate Hre | exact Hre].
    + left.
      assert (Hsame : on_invalid_request e1 w1 = (Raise e1, w1)).
      { destruct e1; try reflexivity. simpl in *. now rewrite E. }
      rewrite Hsame. exact Hself.
Qed.

(** ** The retry policy as a whole *)





